(** * ocibuild / layertool: pkg/python/py_compile.go

    A shallow embedding of [ExternalCompiler] and of the [Compiler] closure it
    returns, together with the parts of the Go standard library the closure
    calls (packages [path], [strings], [time], [io/fs], [os], [os/exec]).

    Layout: the Go library models come first, then the file references, the
    operating system as the closure sees it, the closure itself, and finally
    the properties. *)

From Stdlib Require Import ZArith List Ascii String Strings.Byte DecimalString Lia.
From stdpp Require Import base tactics option list strings gmap.

Local Open Scope Z_scope.

(* ===================================================================== *)
(** ** Package [strings] *)

Module strings.

Definition is_slash (c : ascii) : bool := Ascii.eqb c "/".

(** [strings.HasSuffix(s, suffix)]: some tail of [s] is [suffix]. *)
Fixpoint HasSuffix (s suffix : string) : bool :=
  if decide (s = suffix) then true
  else match s with
       | EmptyString => false
       | String _ s' => HasSuffix s' suffix
       end.

(** [strings.Split(s, "/")]: the elements between slashes; never empty. *)
Fixpoint Split (s : string) : list string :=
  match s with
  | EmptyString => [EmptyString]
  | String c s' =>
      if is_slash c then EmptyString :: Split s'
      else match Split s' with
           | [] => [String c EmptyString]
           | x :: xs => String c x :: xs
           end
  end.

(** [strings.Join(elems, "/")]. *)
Fixpoint Join (elems : list string) : string :=
  match elems with
  | [] => ""
  | [e] => e
  | e :: es => e +:+ "/" +:+ Join es
  end.

Fixpoint has_slash (s : string) : bool :=
  match s with
  | EmptyString => false
  | String c s' => is_slash c || has_slash s'
  end.

(** [strings.TrimRight(s, "/")]. *)
Fixpoint TrimRight (s : string) : string :=
  match s with
  | EmptyString => ""
  | String c s' =>
      match TrimRight s' with
      | EmptyString => if is_slash c then "" else String c ""
      | t => String c t
      end
  end.

End strings.

(* ===================================================================== *)
(** ** Package [path]: slash-separated paths

    [Clean] follows the four rules of the package documentation (collapse
    slashes, drop [.] elements, cancel an inner [..] with the element before
    it, drop [..] at the start of a rooted path), processing the elements
    from left to right as the library's buffer loop does. *)

Module path.

Definition rooted (p : string) : bool :=
  match p with
  | String c _ => strings.is_slash c
  | EmptyString => false
  end.

(** One iteration of the loop of [Clean] on the element [elem]; [out] is
    the output written so far, last element first.  An element [..] in
    [out] can only be part of the leading [../..] of a relative path, which
    is where backtracking stops. *)
Definition clean_step (rt : bool) (out : list string) (elem : string) : list string :=
  if decide (elem = "") then out
  else if decide (elem = ".") then out
  else if decide (elem = "..") then
    match out with
    | top :: rest =>
        if decide (top = "..") then (if rt then out else ".." :: out) else rest
    | [] => if rt then [] else [".."]
    end
  else elem :: out.

Definition clean_elems (rt : bool) (elems : list string) : list string :=
  rev (fold_left (clean_step rt) elems []).

Definition Clean (p : string) : string :=
  if decide (p = "") then "."
  else
    let out := clean_elems (rooted p) (strings.Split p) in
    if rooted p then "/" +:+ strings.Join out
    else match out with
         | [] => "."
         | _ => strings.Join out
         end.

(** [path.Join]: empty elements are ignored, the rest is joined with
    slashes and cleaned; all elements empty gives the empty string. *)
Definition Join (elem : list string) : string :=
  match filter (λ e, e ≠ "") elem with
  | [] => ""
  | es => Clean (strings.Join es)
  end.

(** [path.Split]: the part up to and including the final slash, and the
    rest. *)
Fixpoint Split (p : string) : string * string :=
  match p with
  | EmptyString => ("", "")
  | String c p' =>
      let '(d, f) := Split p' in
      if strings.is_slash c then (String c d, f)
      else if decide (d = "") then ("", String c f)
      else (String c d, f)
  end.

Definition Base (p : string) : string :=
  if decide (p = "") then "."
  else
    let p1 := strings.TrimRight p in
    let p2 := snd (Split p1) in
    if decide (p2 = "") then "/" else p2.

Definition Dir (p : string) : string := Clean (fst (Split p)).

End path.

(* ===================================================================== *)
(** ** Errors, panics and results *)

(** A Go [error] value (as built by [errors.New]). *)
Inductive error := errorString (msg : string).

Definition ENOENT : error := errorString "no such file or directory".
Definition EEXIST : error := errorString "file exists".
Definition EISDIR : error := errorString "is a directory".
Definition ENOTDIR : error := errorString "not a directory".

(** What a statement that may fail yields: a value, an error that the caller
    hands back with [return nil, err], or a run-time panic. *)
Inductive result (A : Type) : Type :=
| Ok (a : A)
| Err (e : error)
| Panic (msg : string).
Arguments Ok {A} a.
Arguments Err {A} e.
Arguments Panic {A} msg.

(** What a call of a Go function yields: its return values, or a panic. *)
Inductive outcome (A : Type) : Type :=
| Returns (a : A)
| Panics (msg : string).
Arguments Returns {A} a.
Arguments Panics {A} msg.

(* ===================================================================== *)
(** ** Package [time] *)

Module time.

(** A [time.Time]: seconds since January 1, year 1 00:00:00 UTC and the
    nanoseconds within the second. *)
Record Time := { sec : Z; nsec : Z }.

Definition int64 (z : Z) : Z := (z + 2 ^ 63) mod 2 ^ 64 - 2 ^ 63.

Definition unixToInternal : Z :=
  (1969 * 365 + 1969 / 4 - 1969 / 100 + 1969 / 400) * 86400.
Definition internalToUnix : Z := - unixToInternal.

Definition IsZero (t : Time) : bool := (sec t =? 0) && (nsec t =? 0).

Definition Unix (t : Time) : Z := int64 (sec t + internalToUnix).

(** [time.Unix(s, 0)], the inverse direction. *)
Definition FromUnix (s : Z) : Time := {| sec := s + unixToInternal; nsec := 0 |}.

(** [t.UnixNano()]: nanoseconds since the Unix epoch, computed in [int64],
    so that it wraps for a date before the year 1678 or after 2262. *)
Definition UnixNano (t : Time) : Z := int64 (Unix t * 1000000000 + nsec t).

(** [time.Unix(0, n)]: the time [n] nanoseconds after the Unix epoch. *)
Definition FromUnixNano (n : Z) : Time :=
  {| sec := n / 1000000000 + unixToInternal; nsec := n mod 1000000000 |}.

End time.

(* ===================================================================== *)
(** ** Package [fmt] *)

Module fmt.
(** The verb [%d] on an [int64]. *)
Definition d (n : Z) : string := NilZero.string_of_int (Z.to_int n).
End fmt.

(* ===================================================================== *)
(** ** Package [io/fs]: file information, and the tree under a directory *)

Module fs.

Definition FileMode := Z.
Definition ModeDir : FileMode := 2 ^ 31.

Record FileInfo := {
  Name : string;
  Size : Z;
  Mode : FileMode;
  ModTime : time.Time;
  IsDir : bool
}.

End fs.

(** What [stat] reports about a file or directory. *)
Record Stat := {
  st_mode : fs.FileMode;
  st_size : Z;
  st_atime : time.Time;
  st_mtime : time.Time
}.

(** A file or a directory with everything below it.  The entries of a
    directory are kept in the order [ReadDir] lists them. *)
#[warnings="-register-all"]
Inductive Node :=
| File (name : string) (st : Stat) (content : list byte)
| Directory (name : string) (st : Stat) (entries : list Node).

Definition node_name (d : Node) : string :=
  match d with File n _ _ | Directory n _ _ => n end.
Definition node_stat (d : Node) : Stat :=
  match d with File _ st _ | Directory _ st _ => st end.
Definition node_IsDir (d : Node) : bool :=
  match d with File _ _ _ => false | Directory _ _ _ => true end.
Definition node_content (d : Node) : list byte :=
  match d with File _ _ c => c | Directory _ _ _ => [] end.
Definition node_Info (d : Node) : fs.FileInfo :=
  {| fs.Name := node_name d;
     fs.Size := st_size (node_stat d);
     fs.Mode := st_mode (node_stat d);
     fs.ModTime := st_mtime (node_stat d);
     fs.IsDir := node_IsDir d |}.

(* ===================================================================== *)
(** ** Package [path/filepath]: host paths

    The closure builds one kind of host path, [filepath.Join(tmpdir, x)].
    It is kept as the pair it was built from: which separator the host puts
    between the two never enters the model. *)

Module filepath.
Record HostPath := { hp_dir : string; hp_rel : string }.
Definition Join (dir rel : string) : HostPath := {| hp_dir := dir; hp_rel := rel |}.
End filepath.

(* ===================================================================== *)
(** ** Package [os/exec] *)

Module exec.
Record Cmd := {
  Path : string;
  Args : list string;
  Dir : string;
  Env : option (list string)      (* [None] is Go's nil: inherit *)
}.
Definition set_Dir (c : Cmd) (dir : string) : Cmd :=
  {| Path := Path c; Args := Args c; Dir := dir; Env := Env c |}.
Definition set_Env (c : Cmd) (env : list string) : Cmd :=
  {| Path := Path c; Args := Args c; Dir := Dir c; Env := Some env |}.
End exec.

(* ===================================================================== *)
(** ** Package [context] *)

Module context.
(** A context at hand.  What a context stops is the world's matter: a run
    ended by its context is a run that fails. *)
Inductive Context := Background.
End context.

(* ===================================================================== *)
(** ** File references (pkg/fsutil) *)

(** What [Open] hands out: the bytes [io.ReadAll] gets from it, or the
    error it meets, and the outcome of [Close]. *)
Record ReadCloser := {
  ReadAll : error + list byte;
  Close : option error
}.

(** Modelled from the spec: the interface [fsutil.FileReference] of
    pkg/fsutil, which is not among the sources at hand.  A source artifact
    has a virtual full name (a slash path), a base name, a modification
    time and a content that is opened on demand. *)
Record FileReference := {
  FullName : string;
  Name : string;
  ModTime : time.Time;
  Open : error + ReadCloser
}.

(** Modelled from the spec: the struct [fsutil.InMemFileReference] of
    pkg/fsutil, which is not among the sources at hand; its three fields
    are the ones lines 127-131 fill: the file information, the virtual full
    name, and the content held in memory. *)
Record InMemFileReference := {
  FileInfo : fs.FileInfo;
  MFullName : string;
  MContent : list byte
}.

(* ===================================================================== *)
(** ** The operating system as the closure sees it *)

(** The calls whose failure is decided by the world.  The walk addresses
    its calls by the slash path inside the directory. *)
Inductive Op :=
| OpWriteFile
| OpChtimes
| OpRun
| OpRemoveAll
| OpStat (p : string)
| OpReadDir (p : string)
| OpInfo (p : string)
| OpOpen (p : string)
| OpReadAll (p : string).

(** The calls that are logged: those by which the closure changes the file
    system or starts a process.  Reads are not logged: the reads of the
    source are the matter of the file reference, and those of the walk over
    the workspace appear as [Op]s, whose failure the world decides. *)
Inductive Event :=
| EvMkdirTemp (dir pattern : string)
| EvWriteFile (name : filepath.HostPath) (data : list byte) (perm : fs.FileMode)
| EvChtimes (name : filepath.HostPath) (atime mtime : time.Time)
| EvRun (c : exec.Cmd) (cwd : option (list Node))
| EvRemoveAll (path : string).

(** Everything outside the program that one call depends on. *)
Record World := {
  MkdirTemp_result : string → string → error + string;
  Environ : list string;
  umask : fs.FileMode;
  now : time.Time;
  fault : Op → option error;
  (** what a failing [os.RemoveAll] leaves of a tree *)
  leftover : Node → Node;
  (** the external program on this host: the command as [os/exec] is given
      it, the entries of its working directory and the clock give failure
      or the new entries.  What the program writes is stamped by the kernel
      with the time of writing, so the time stamps of the new entries are
      the world's and not the program's alone.  [os/exec] derives the
      environment of the process from [Env] alone when that is set
      (dropping all but the last entry of a repeated key), and from the
      environment of the caller and [Dir] (as [PWD]) when it is nil. *)
  external : exec.Cmd → list Node → time.Time → error + list Node
}.

(** The temporary directories that exist, by host path, and the logged
    calls made so far (latest last). *)
Record State := {
  files : gmap string Node;
  trace : list Event
}.

Definition set_files (s : State) (f : gmap string Node) : State :=
  {| files := f; trace := trace s |}.
Definition log (ev : Event) (s : State) : State :=
  {| files := files s; trace := trace s ++ [ev] |}.

Definition dir_entries (s : State) (dir : string) : option (list Node) :=
  match files s !! dir with
  | Some (Directory _ _ es) => Some es
  | _ => None
  end.

(** Statements: they read the world, change the state, and yield a result. *)
Definition M (A : Type) : Type := World → State → result A * State.

Definition ret {A} (a : A) : M A := λ _ s, (Ok a, s).
Definition throw {A} (e : error) : M A := λ _ s, (Err e, s).
Definition bind {A B} (m : M A) (k : A → M B) : M B :=
  λ w s,
    match m w s with
    | (Ok a, s') => k a w s'
    | (Err e, s') => (Err e, s')
    | (Panic msg, s') => (Panic msg, s')
    end.

Notation "x ← m ; k" := (bind m (λ x, k))
  (at level 20, m at level 100, k at level 200, right associativity, only parsing).
Notation "m ;; k" := (bind m (λ _, k))
  (at level 100, k at level 200, right associativity, only parsing).

(** [v, err := f(); if err != nil { return nil, err }] on a value at hand. *)
Definition try {A} (r : error + A) : M A :=
  match r with inl e => throw e | inr a => ret a end.
(** [if err := f(); err != nil { return nil, err }]. *)
Definition try_ (r : option error) : M unit :=
  match r with Some e => throw e | None => ret tt end.
Definition emit (ev : Event) : M unit := λ _ s, (Ok tt, log ev s).
Definition may_fail (op : Op) : M unit := λ w s, try_ (fault w op) w s.

(* ===================================================================== *)
(** ** Package [os] *)

Module os.

(** [os.MkdirTemp]: the world picks the name; the directory is created
    empty, for its owner only. *)
Definition MkdirTemp (dir pattern : string) : M string :=
  emit (EvMkdirTemp dir pattern);;
  tmpdir ← (λ w, try (MkdirTemp_result w dir pattern) w);
  λ w s,
    match files s !! tmpdir with
    | Some _ => (Err EEXIST, s)
    | None =>
        let st := {| st_mode := Z.lor fs.ModeDir (Z.ldiff 448 (umask w));
                     st_size := 0; st_atime := now w; st_mtime := now w |} in
        (Ok tmpdir, set_files s (<[tmpdir := Directory "." st []]> (files s)))
    end.

(** Writing [data] to the entry [rel] of a directory: an existing file is
    truncated and rewritten, a missing one is created with [perm] (before
    umask). *)
Fixpoint put_file (w : World) (rel : string) (data : list byte)
    (perm : fs.FileMode) (es : list Node) : error + list Node :=
  match es with
  | [] =>
      inr [File rel {| st_mode := Z.ldiff perm (umask w);
                       st_size := Z.of_nat (length data);
                       st_atime := now w; st_mtime := now w |} data]
  | e :: es' =>
      if decide (node_name e = rel) then
        match e with
        | File _ st _ =>
            inr (File rel {| st_mode := st_mode st;
                             st_size := Z.of_nat (length data);
                             st_atime := st_atime st; st_mtime := now w |} data :: es')
        | Directory _ _ _ => inl EISDIR
        end
      else
        match put_file w rel data perm es' with
        | inl err => inl err
        | inr es'' => inr (e :: es'')
        end
  end.

(** [os.WriteFile(name, data, perm)].  The names [.], [..] and [/] joined
    to a directory give a directory again. *)
Definition WriteFile (name : filepath.HostPath) (data : list byte)
    (perm : fs.FileMode) : M unit :=
  emit (EvWriteFile name data perm);;
  may_fail OpWriteFile;;
  λ w s,
    match files s !! filepath.hp_dir name with
    | Some (Directory n st es) =>
        let rel := filepath.hp_rel name in
        if decide (rel = "." ∨ rel = ".." ∨ rel = "/" ∨ rel = "") then (Err EISDIR, s)
        else if strings.has_slash rel then (Err ENOENT, s)
        else
          match put_file w rel data perm es with
          | inl err => (Err err, s)
          | inr es' =>
              (Ok tt, set_files s (<[filepath.hp_dir name := Directory n st es']> (files s)))
          end
    | Some (File _ _ _) => (Err ENOTDIR, s)
    | None => (Err ENOENT, s)
    end.

(** The time stamp [os.Chtimes] leaves where it is asked for [t] and finds
    [old]: a zero [t] leaves the stamp as it is ([UTIME_OMIT]); any other
    [t] goes through [syscall.NsecToTimespec(t.UnixNano())], whole
    nanoseconds in an [int64].  The file system is taken to keep
    nanoseconds. *)
Definition utime (t old : time.Time) : time.Time :=
  if time.IsZero t then old else time.FromUnixNano (time.UnixNano t).

Fixpoint set_times (rel : string) (atime mtime : time.Time)
    (es : list Node) : error + list Node :=
  match es with
  | [] => inl ENOENT
  | e :: es' =>
      if decide (node_name e = rel) then
        let st := {| st_mode := st_mode (node_stat e); st_size := st_size (node_stat e);
                     st_atime := utime atime (st_atime (node_stat e));
                     st_mtime := utime mtime (st_mtime (node_stat e)) |} in
        inr (match e with
             | File n _ c => File n st c
             | Directory n _ ds => Directory n st ds
             end :: es')
      else
        match set_times rel atime mtime es' with
        | inl err => inl err
        | inr es'' => inr (e :: es'')
        end
  end.

(** [os.Chtimes(name, atime, mtime)] on an entry of a directory. *)
Definition Chtimes (name : filepath.HostPath) (atime mtime : time.Time) : M unit :=
  emit (EvChtimes name atime mtime);;
  may_fail OpChtimes;;
  λ w s,
    match files s !! filepath.hp_dir name with
    | Some (Directory n st es) =>
        match set_times (filepath.hp_rel name) atime mtime es with
        | inl err => (Err err, s)
        | inr es' =>
            (Ok tt, set_files s (<[filepath.hp_dir name := Directory n st es']> (files s)))
        end
    | Some (File _ _ _) => (Err ENOTDIR, s)
    | None => (Err ENOENT, s)
    end.

(** [os.RemoveAll(path)]: removes the tree.  When it fails it has removed
    what it could, and what it could not remove is left under [path]. *)
Definition RemoveAll (path : string) (w : World) (s : State) : option error * State :=
  let s := log (EvRemoveAll path) s in
  match fault w OpRemoveAll with
  | Some e => (Some e, set_files s (alter (leftover w) path (files s)))
  | None => (None, set_files s (delete path (files s)))
  end.

(** [os.DirFS(dir)]: the tree under [dir], if there is one. *)
Definition DirFS (dir : string) (s : State) : option Node := files s !! dir.

End os.

(* ===================================================================== *)
(** ** Package [dexec] (dlib): running the external program *)

Module dexec.

Definition CommandContext (name : string) (arg : list string) : exec.Cmd :=
  {| exec.Path := name; exec.Args := name :: arg; exec.Dir := ""; exec.Env := None |}.

(** [cmd.Run()]: the process starts in [cmd.Dir] and rewrites the entries
    of its working directory. *)
Definition Run (c : exec.Cmd) : M unit :=
  (λ w s, (Ok tt, log (EvRun c (dir_entries s (exec.Dir c))) s));;
  may_fail OpRun;;
  λ w s,
    match files s !! exec.Dir c with
    | Some (Directory n st es) =>
        match external w c es (now w) with
        | inl err => (Err err, s)
        | inr es' =>
            (Ok tt, set_files s (<[exec.Dir c := Directory n st es']> (files s)))
        end
    | Some (File _ _ _) => (Err ENOTDIR, s)
    | None => (Err ENOENT, s)
    end.

End dexec.

(* ===================================================================== *)
(** ** [fs.WalkDir]

    The walk function of this program never answers [fs.SkipDir] or
    [fs.SkipAll], so the walker's treatment of the two is left out.  A
    directory that cannot be read is reported to the walk function with no
    entries to descend into. *)

Section WalkDir.

Context {S : Type}.
Variable flt : Op → option error.
(** [fs.WalkDirFunc]: path, entry (nil when the root cannot be examined),
    error to report. *)
Variable fn : string → option Node → option error → S → result unit * S.

(** The loop over the entries of a directory read without failure. *)
Definition walkEntries (walk : string → Node → S → result unit * S) (name : string) :
    list Node → S → result unit * S :=
  fix loop (ds : list Node) (st : S) {struct ds} : result unit * S :=
    match ds with
    | [] => (Ok tt, st)
    | d1 :: ds' =>
        match walk (path.Join [name; node_name d1]) d1 st with
        | (Ok _, st') => loop ds' st'
        | r => r
        end
    end.

Fixpoint walkDir (name : string) (d : Node) (st : S) {struct d} : result unit * S :=
  match fn name (Some d) None st with
  | (Ok _, st1) =>
      match d with
      | File _ _ _ => (Ok tt, st1)
      | Directory _ _ entries =>
          match flt (OpReadDir name) with
          | Some e => fn name (Some d) (Some e) st1
          | None => walkEntries walkDir name entries st1
          end
      end
  | r => r
  end.

Definition WalkDir (fsys : option Node) (root : string) (st : S) : result unit * S :=
  match flt (OpStat root), fsys with
  | Some e, _ => fn root None (Some e) st
  | None, None => fn root None (Some ENOENT) st
  | None, Some d => walkDir root d st
  end.

End WalkDir.


(* ===================================================================== *)
(** ** py_compile.go *)

(** [map[string]fsutil.FileReference] *)
Abbreviation VFS := (gmap string InMemFileReference).

(** The return values of a [Compiler]: [compiled] and [err]; [None] is nil. *)
Record Results := {
  compiled : option VFS;
  err : option error
}.

(** [type Compiler func(context.Context, time.Time, fsutil.FileReference)
    (map[string]fsutil.FileReference, error)].  The context and the file
    reference are interface values: [None] is nil. *)
Definition Compiler : Type :=
  option context.Context → time.Time → option FileReference →
  World → State → outcome Results * State.

(** The use of an interface value: a method call on nil panics. *)
Definition deref {A} (v : option A) : M A :=
  match v with
  | Some a => ret a
  | None => λ _ s, (Panic "invalid memory address or nil pointer dereference", s)
  end.

(** Lines 39-43: the deferred assignment to the named result [err]. *)
Definition maybeSetErr (err _err : option error) : option error :=
  if bool_decide (_err ≠ None) && bool_decide (err = None) then _err else err.

(** Lines 98-133: the function handed to [fs.WalkDir]; it fills [vfs]. *)
Definition walkFn (w : World) (inp : FileReference)
    (p : string) (d : option Node) (e : option error) (vfs : VFS) : result unit * VFS :=
  match e with
  | Some e => (Err e, vfs)
  | None =>
      if decide (p = ".") then (Ok tt, vfs)
      else
        match d with
        | None => (Panic "invalid memory address or nil pointer dereference", vfs)
        | Some d =>
            if negb (strings.HasSuffix p ".pyc") && negb (node_IsDir d) then (Ok tt, vfs)
            else
              match fault w (OpInfo p) with
              | Some err => (Err err, vfs)
              | None =>
                  let info := node_Info d in
                  let content : result (list byte) :=
                    if negb (node_IsDir d) then
                      match fault w (OpOpen p) with
                      | Some err => Err err
                      | None =>
                          match fault w (OpReadAll p) with
                          | Some err => Err err
                          | None => Ok (node_content d)
                          end
                      end
                    else Ok [] in
                  match content with
                  | Ok content =>
                      let fullname := path.Join [path.Dir (FullName inp); p] in
                      (Ok tt,
                       <[fullname := {| FileInfo := info;
                                        MFullName := fullname;
                                        MContent := content |}]> vfs)
                  | Err err => (Err err, vfs)
                  | Panic msg => (Panic msg, vfs)
                  end
              end
        end
  end.

(** Lines 92-137: read in the output. *)
Definition collect (inp : FileReference) (tmpdir : string) : M VFS :=
  λ w s,
    let vfs : VFS := ∅ in
    let dirFS := os.DirFS tmpdir s in
    match WalkDir (fault w) (walkFn w inp) dirFS "." vfs with
    | (Ok _, vfs) => (Ok vfs, s)
    | (Err err, _) => (Err err, s)
    | (Panic msg, _) => (Panic msg, s)
    end.

(** Lines 54-75: get the input file and write it to the tempdir. *)
Definition setup (inp : FileReference) (tmpdir : string) : M unit :=
  inReader ← try (Open inp);
  inBytes ← match ReadAll inReader with
            | inl err => let _ := Close inReader in throw err
            | inr inBytes => ret inBytes
            end;
  try_ (Close inReader);;
  let filename := filepath.Join tmpdir (path.Base (FullName inp)) in
  os.WriteFile filename inBytes 438;;
  os.Chtimes filename (ModTime inp) (ModTime inp).

(** Lines 78-87: the command. *)
Definition command (exe : string) (args : list string) (clampTime : time.Time)
    (inp : FileReference) (tmpdir : string) (environ : list string) : exec.Cmd :=
  let cmd := dexec.CommandContext exe
               (args ++ ["-p"; path.Join ["/"; path.Dir (FullName inp)];
                         Name inp]) in
  let cmd := exec.set_Dir cmd tmpdir in
  if negb (time.IsZero clampTime) then
    exec.set_Env cmd (environ ++ ["PYTHONHASHSEED=0";
                                  "SOURCE_DATE_EPOCH=" +:+ fmt.d (time.Unix clampTime)])
  else cmd.

(** Lines 77-90: run the compiler. *)
Definition invoke (exe : string) (args : list string) (clampTime : time.Time)
    (inp : FileReference) (tmpdir : string) : M unit :=
  cmd ← (λ w, ret (command exe args clampTime inp tmpdir (Environ w)) w);
  dexec.Run cmd.

(** Lines 54-137: everything between the [defer] statement and the end.
    The first use of [in] is [in.Open()] at line 55; the context is first
    used at line 78, where [dexec.CommandContext] calls a method of it. *)
Definition closure_body (exe : string) (args : list string)
    (ctx : option context.Context) (clampTime : time.Time)
    (in_ : option FileReference) (tmpdir : string) : M VFS :=
  inp ← deref in_;
  setup inp tmpdir;;
  deref ctx;;
  invoke exe args clampTime inp tmpdir;;
  collect inp tmpdir.

(** Lines 38-138: the closure; [args] is [cmdline[1:]].  A [return] sets
    the named results, then the deferred function runs and may still set
    [err]; on a panic the deferred function runs before the panic goes on
    to the caller. *)
Definition closure (exe : string) (args : list string) : Compiler :=
  λ ctx clampTime in_ w s,
    match os.MkdirTemp "" "ocibuild-pycompile." w s with
    | (Ok tmpdir, s) =>
        let '(r, s) := closure_body exe args ctx clampTime in_ tmpdir w s in
        let '(rmErr, s) := os.RemoveAll tmpdir w s in
        match r with
        | Ok vfs => (Returns {| compiled := Some vfs; err := maybeSetErr None rmErr |}, s)
        | Err e => (Returns {| compiled := None; err := maybeSetErr (Some e) rmErr |}, s)
        | Panic msg => (Panics msg, s)
        end
    | (Err e, s) => (Returns {| compiled := None; err := Some e |}, s)
    | (Panic msg, s) => (Panics msg, s)
    end.

Section ExternalCompiler.

(** [dexec.LookPath] and [filepath.Abs] of the host. *)
Variable LookPath : string → error + string.
Variable Abs : string → error + string.

(** Lines 29-139. *)
Definition ExternalCompiler (cmdline : list string) : outcome (option Compiler * option error) :=
  match cmdline with
  | [] => Panics "runtime error: index out of range [0] with length 0"
  | name :: args =>
      match LookPath name with
      | inl err => Returns (None, Some err)
      | inr exe =>
          match Abs exe with
          | inl err => Returns (None, Some err)
          | inr exe => Returns (Some (closure exe args), None)
          end
      end
  end.

End ExternalCompiler.

(** A state with no temporary directory and no call made. *)
Definition initial : State := {| files := ∅; trace := [] |}.

(** A call of the closure with a context and a source at hand, as every
    caller that means to compile something makes it. *)
Definition compiler (exe : string) (args : list string) (clampTime : time.Time)
    (inp : FileReference) : World → State → outcome Results * State :=
  closure exe args (Some context.Background) clampTime (Some inp).

(** What [closure_body] comes to in such a call: the three phases. *)
Definition body (exe : string) (args : list string) (clampTime : time.Time)
    (inp : FileReference) (tmpdir : string) : M VFS :=
  setup inp tmpdir;;
  invoke exe args clampTime inp tmpdir;;
  collect inp tmpdir.

(* ===================================================================== *)
(** ** The collector in the words of its description

    These definitions are not taken from the code: they say which entries
    of a workspace the description selects and what it makes of them, to be
    compared with what [collect] computes. *)

(** Every entry below a directory with its slash path, parents first. *)
Fixpoint entries (p : string) (d : Node) : list (string * Node) :=
  (p, d) ::
  match d with
  | File _ _ _ => []
  | Directory _ _ es =>
      flat_map (λ d1, entries (path.Join [p; node_name d1]) d1) es
  end.

(** The entries of the workspace, the root itself left out. *)
Definition entries_below (root : Node) : list (string * Node) :=
  tail (entries "." root).

(** A directory always; a file when its name ends with [.pyc]. *)
Definition selected (pd : string * Node) : bool :=
  node_IsDir pd.2 || strings.HasSuffix (node_name pd.2) ".pyc".

(** The virtual full name of the entry at [p]. *)
Definition translate (inp : FileReference) (p : string) : string :=
  path.Join [path.Dir (FullName inp); p].

Definition reference (inp : FileReference) (pd : string * Node) : InMemFileReference :=
  {| FileInfo := node_Info pd.2;
     MFullName := translate inp pd.1;
     MContent := node_content pd.2 |}.

Definition add_reference (inp : FileReference) (vfs : VFS) (pd : string * Node) : VFS :=
  <[translate inp pd.1 := reference inp pd]> vfs.

Definition collected (inp : FileReference) (root : Node) : VFS :=
  fold_left (add_reference inp) (filter (λ pd, selected pd = true) (entries_below root)) ∅.

(** The test of the code, on the path instead of the name. *)
Definition picked (pd : string * Node) : bool :=
  negb (bool_decide (pd.1 = ".")) &&
  negb (negb (strings.HasSuffix pd.1 ".pyc") && negb (node_IsDir pd.2)).

(** The fallible calls of a walk over [d] at path [p], in the order in
    which a walk that meets no failure makes them. *)
Definition visit_ops (pd : string * Node) : list Op :=
  if picked pd then
    OpInfo pd.1 :: (if node_IsDir pd.2 then [] else [OpOpen pd.1; OpReadAll pd.1])
  else [].

Fixpoint walk_ops (p : string) (d : Node) : list Op :=
  visit_ops (p, d) ++
  match d with
  | File _ _ _ => []
  | Directory _ _ es =>
      OpReadDir p :: flat_map (λ d1, walk_ops (path.Join [p; node_name d1]) d1) es
  end.

(** The first failure among calls made in this order. *)
Fixpoint first_fault (flt : Op → option error) (ops : list Op) : option error :=
  match ops with
  | [] => None
  | op :: ops' =>
      match flt op with
      | Some e => Some e
      | None => first_fault flt ops'
      end
  end.

(** Names as a directory listing has them. *)
Definition valid_name (n : string) : Prop :=
  n ≠ "" ∧ n ≠ "." ∧ n ≠ ".." ∧ strings.has_slash n = false.

(** Every entry below [d] has such a name. *)
Fixpoint well_named (d : Node) : Prop :=
  match d with
  | File _ _ _ => True
  | Directory _ _ es =>
      (fix all (ds : list Node) : Prop :=
         match ds with
         | [] => True
         | d1 :: ds' => valid_name (node_name d1) ∧ well_named d1 ∧ all ds'
         end) es
  end.

(** The path of the entry reached through the directories [cs]. *)
Definition rel_path (cs : list string) : string :=
  match cs with
  | [] => "."
  | _ => strings.Join cs
  end.

(** The map a walk without failure makes of the whole tree under [root]. *)
Definition full_map (inp : FileReference) (root : Node) : VFS :=
  fold_left (add_reference inp)
    (filter (λ pd, picked pd = true) (entries "." root)) ∅.

(** The fallible calls of [collect] on the tree [root]. *)
Definition collect_ops (root : Node) : list Op :=
  OpStat "." :: walk_ops "." root.

(** The logged calls made between the states [s] and [s']. *)
Definition since (s s' : State) : list Event :=
  drop (length (trace s)) (trace s').

(** One of the three phases after the creation of the workspace fails with
    the error [E]. *)
Definition phase_fails (exe : string) (args : list string) (clampTime : time.Time)
    (inp : FileReference) (tmpdir : string) (w : World) (s : State) (E : error) : Prop :=
  (∃ s', setup inp tmpdir w s = (Err E, s')) ∨
  (∃ s1 s', setup inp tmpdir w s = (Ok tt, s1) ∧
            invoke exe args clampTime inp tmpdir w s1 = (Err E, s')) ∨
  (∃ s1 s2 s', setup inp tmpdir w s = (Ok tt, s1) ∧
               invoke exe args clampTime inp tmpdir w s1 = (Ok tt, s2) ∧
               collect inp tmpdir w s2 = (Err E, s')).

(** The file [setup] leaves in the workspace. *)
Definition input_file (w : World) (inp : FileReference) (data : list byte) : Node :=
  File (path.Base (FullName inp))
    {| st_mode := Z.ldiff 438 (umask w);
       st_size := Z.of_nat (length data);
       st_atime := os.utime (ModTime inp) (now w);
       st_mtime := os.utime (ModTime inp) (now w) |} data.


(** The walk stops at the first failure; without one it adds the picked
    entries in order. *)
Definition walk_agrees (w : World) (inp : FileReference)
    (ops : list Op) (ents : list (string * Node))
    (vfs : VFS) (r : result unit * VFS) : Prop :=
  match first_fault (fault w) ops with
  | Some e => r.1 = Err e
  | None =>
      r = (Ok tt, fold_left (add_reference inp)
                    (filter (λ pd, picked pd = true) ents) vfs)
  end.

(** An event other than the start of the external program. *)
Definition not_run (ev : Event) : Prop := ∀ c cwd, ev ≠ EvRun c cwd.

(* ===================================================================== *)
(** ** A sample call

    A source [pkg/mod.py] and a world whose external program leaves a
    [__pycache__] directory with one compiled file and a stray text file
    next to the input. *)

Definition sample_stat (mode size : Z) : Stat :=
  {| st_mode := mode; st_size := size;
     st_atime := time.FromUnix 1000; st_mtime := time.FromUnix 1000 |}.

Definition sample_output : list Node :=
  [Directory "__pycache__" (sample_stat (Z.lor fs.ModeDir 493) 4096)
     [File "mod.cpython-39.pyc" (sample_stat 420 3) [x01; x02; x03]];
   File "stray.txt" (sample_stat 420 0) []].

Definition sample_world (environ : list string) (flt : Op → option error) : World :=
  {| MkdirTemp_result := λ _ _, inr "/tmp/ocibuild-pycompile.1";
     Environ := environ;
     umask := 18;
     now := time.FromUnix 5;
     fault := flt;
     leftover := λ d, d;
     external := λ _ es _, inr (es ++ sample_output) |}.

Definition sample_input : FileReference :=
  {| FullName := "pkg/mod.py";
     Name := "mod.py";
     ModTime := time.FromUnix 77;
     Open := inr {| ReadAll := inr [x61; x62]; Close := None |} |}.

Definition no_fault : Op → option error := λ _, None.

(** The external program exits with a failure, and the removal of the
    workspace fails as well. *)
Definition run_and_removal_fail : Op → option error :=
  λ op,
    match op with
    | OpRun => Some (errorString "exit status 1")
    | OpRemoveAll => Some (errorString "directory not empty")
    | _ => None
    end.

(** Reading the compiled file back fails. *)
Definition read_fails : Op → option error :=
  λ op,
    match op with
    | OpReadAll p =>
        if decide (p = "__pycache__/mod.cpython-39.pyc")
        then Some (errorString "input/output error") else None
    | _ => None
    end.

(** A world whose external program writes one compiled file that holds a
    byte for every variable of its environment. *)
Definition env_world (environ : list string) : World :=
  {| MkdirTemp_result := λ _ _, inr "/tmp/ocibuild-pycompile.2";
     Environ := environ;
     umask := 18;
     now := time.FromUnix 5;
     fault := no_fault;
     leftover := λ d, d;
     external := λ c _ _,
       let env := default [] (exec.Env c) in
       inr [File "mod.pyc" (sample_stat 420 (Z.of_nat (length env)))
              (map (λ _, x01) env)] |}.

Definition sample_clamp : time.Time := time.FromUnix 1234.

Definition sample_compiler :
    time.Time → FileReference → World → State → outcome Results * State :=
  compiler "/usr/bin/python3" ["-m"; "compileall"].

(** The compiler [ExternalCompiler] builds on the sample host. *)
Definition sample_closure : Compiler :=
  closure "/usr/bin/python3" ["-m"; "compileall"].

(** The program lookup of the sample host. *)
Definition sample_LookPath (name : string) : error + string := inr ("bin/" +:+ name).
Definition sample_Abs (exe : string) : error + string := inr ("/usr/" +:+ exe).

(** The command of the sample call and the workspace it starts in. *)
Definition sample_cmd : exec.Cmd :=
  {| exec.Path := "/usr/bin/python3";
     exec.Args := ["/usr/bin/python3"; "-m"; "compileall"; "-p"; "/pkg"; "mod.py"];
     exec.Dir := "/tmp/ocibuild-pycompile.1";
     exec.Env := Some ["PATH=/bin"; "PYTHONHASHSEED=0"; "SOURCE_DATE_EPOCH=1234"] |}.

Definition sample_cwd : option (list Node) :=
  Some [File "mod.py"
          {| st_mode := 420; st_size := 2;
             st_atime := time.FromUnix 77; st_mtime := time.FromUnix 77 |}
          [x61; x62]].

(** The environment of the external program in the words of the
    description: untouched without a clamp time, else the inherited one
    with [HASHSEED=0] and the epoch added. *)
Definition described_env (w : World) (clampTime : time.Time) : option (list string) :=
  if time.IsZero clampTime then None
  else Some (Environ w ++ ["HASHSEED=0";
                           "SOURCE_DATE_EPOCH=" +:+ fmt.d (time.Unix clampTime)]).

(** The workspace of the sample call when the external program has
    finished: the input, and what the program left. *)
Definition sample_root : Node :=
  Directory "." (sample_stat (Z.lor fs.ModeDir 448) 4096)
    (File "mod.py" (sample_stat 420 2) [x61; x62] :: sample_output).

Definition sample_state : State :=
  {| files := {[ "/tmp/ocibuild-pycompile.1" := sample_root ]}; trace := [] |}.

(** The sample world at another time: another name for the workspace,
    another clock, and a removal that fails. *)
Definition other_world : World :=
  {| MkdirTemp_result := λ _ _, inr "/tmp/ocibuild-pycompile.77";
     Environ := ["PATH=/bin"];
     umask := 18;
     now := time.FromUnix 99999;
     fault := λ op, match op with
                    | OpRemoveAll => Some (errorString "device busy")
                    | _ => None
                    end;
     leftover := λ d, d;
     external := λ _ es _, inr (es ++ sample_output) |}.

(** The map a call returns, if any. *)
Definition returned_map (o : outcome Results) : option VFS :=
  match o with
  | Returns r => compiled r
  | Panics _ => None
  end.

(** The error met while reading the input: that of [Open], else that of
    [io.ReadAll], else that of [Close]. *)
Definition input_error (inp : FileReference) : option error :=
  match Open inp with
  | inl e => Some e
  | inr rc =>
      match ReadAll rc with
      | inl e => Some e
      | inr _ => Close rc
      end
  end.

(** A source that breaks off while it is read, and then fails to close. *)
Definition broken_input : FileReference :=
  {| FullName := "pkg/mod.py";
     Name := "mod.py";
     ModTime := time.FromUnix 77;
     Open := inr {| ReadAll := inl (errorString "unexpected EOF");
                    Close := Some (errorString "file already closed") |} |}.

(** A world in which no temporary directory can be created. *)
Definition full_disk_world : World :=
  {| MkdirTemp_result := λ _ _, inl (errorString "no space left on device");
     Environ := [];
     umask := 18;
     now := time.FromUnix 5;
     fault := no_fault;
     leftover := λ d, d;
     external := λ _ es _, inr es |}.

(** A source at the top of the virtual file system. *)
Definition top_input : FileReference :=
  {| FullName := "setup.py";
     Name := "setup.py";
     ModTime := time.FromUnix 77;
     Open := inr {| ReadAll := inr [x61; x62]; Close := None |} |}.

(** A world whose external program compiles nothing and leaves a text file,
    and in which no entry of the workspace can be examined or opened. *)
Definition idle_world : World :=
  {| MkdirTemp_result := λ _ _, inr "/tmp/ocibuild-pycompile.3";
     Environ := [];
     umask := 18;
     now := time.FromUnix 5;
     fault := λ op,
       match op with
       | OpInfo _ | OpOpen _ | OpReadAll _ => Some (errorString "permission denied")
       | _ => None
       end;
     leftover := λ d, d;
     external := λ _ es _, inr (es ++ [File "notes.txt" (sample_stat 420 0) []]) |}.

(** ** What the invocation phase needs, and results up to time stamps *)

(** Nothing stands in the way of the invocation phase: the world hands out
    a workspace [tmpdir] that does not exist yet, the source can be read,
    its base name names a file, and neither [os.WriteFile] nor [os.Chtimes]
    fails. *)
Definition reaches_invocation (w : World) (s : State) (inp : FileReference)
    (tmpdir : string) : Prop :=
  MkdirTemp_result w "" "ocibuild-pycompile." = inr tmpdir ∧
  files s !! tmpdir = None ∧
  input_error inp = None ∧
  valid_name (path.Base (FullName inp)) ∧
  fault w OpWriteFile = None ∧
  fault w OpChtimes = None.

(** A time that [os.Chtimes] can set: not the zero time, and a whole number
    of nanoseconds from the Unix epoch that fits an [int64] (the years 1678
    to 2262). *)
Definition settable (t : time.Time) : Prop :=
  time.IsZero t = false ∧
  0 ≤ time.nsec t < 1000000000 ∧
  - 2 ^ 63 ≤ (time.sec t + time.internalToUnix) * 1000000000 + time.nsec t < 2 ^ 63.

(** A tree, file information and a returned map without their time
    stamps (all set to the zero time). *)
Definition no_time : time.Time := {| time.sec := 0; time.nsec := 0 |}.

Definition untimed_stat (st : Stat) : Stat :=
  {| st_mode := st_mode st; st_size := st_size st;
     st_atime := no_time; st_mtime := no_time |}.

Fixpoint untimed_node (d : Node) : Node :=
  match d with
  | File n st c => File n (untimed_stat st) c
  | Directory n st es => Directory n (untimed_stat st) (map untimed_node es)
  end.



(** The external program is a function of its command line, its
    environment and the content of its working directory: two runs of the
    same program with the same arguments and the same environment of their
    own, on the same entries, leave the same entries, time stamps apart.
    The name of the working directory and the clock may differ.  Commands
    that inherit their environment are left out: for them [os/exec] puts
    the name of the working directory into the environment. *)
Definition deterministic
    (prog : exec.Cmd → list Node → time.Time → error + list Node) : Prop :=
  ∀ c c' es t t' out out',
    is_Some (exec.Env c) →
    exec.Path c = exec.Path c' → exec.Args c = exec.Args c' → exec.Env c = exec.Env c' →
    prog c es t = inr out → prog c' es t' = inr out' →
    map untimed_node out = map untimed_node out'.

(** A source whose modification time was never set. *)
Definition undated_input : FileReference :=
  {| FullName := "pkg/mod.py";
     Name := "mod.py";
     ModTime := {| time.sec := 0; time.nsec := 0 |};
     Open := inr {| ReadAll := inr [x61; x62]; Close := None |} |}.


(* ===================================================================== *)
(** * Properties *)

(** ** The library models on known inputs *)

Example Clean_table :
  map path.Clean
    [""; "abc"; "abc/def"; "a/b/c"; "."; ".."; "../.."; "../../abc"; "/abc"; "/";
     "abc/"; "abc/def/"; "./"; "../"; "../../"; "/abc/";
     "abc//def//ghi"; "//abc"; "///abc"; "//abc//"; "abc//";
     "abc/./def"; "/./abc/def"; "abc/.";
     "abc/def/ghi/../jkl"; "abc/def/../ghi/../jkl"; "abc/def/.."; "abc/def/../..";
     "/abc/def/../.."; "abc/def/../../.."; "/abc/def/../../..";
     "abc/def/../../../ghi/jkl/../../../mno";
     "abc/./../def"; "abc//./../def"; "abc/../../././../def"; "/../abc"]
  = ["."; "abc"; "abc/def"; "a/b/c"; "."; ".."; "../.."; "../../abc"; "/abc"; "/";
     "abc"; "abc/def"; "."; ".."; "../.."; "/abc";
     "abc/def/ghi"; "/abc"; "/abc"; "/abc"; "abc";
     "abc/def"; "/abc/def"; "abc";
     "abc/def/jkl"; "abc/jkl"; "abc"; ".";
     "/"; ".."; "/";
     "../../mno";
     "def"; "def"; "../../def"; "/abc"].
Proof. reflexivity. Qed.

Example Join_table :
  map path.Join
    [[]; [""]; ["a"]; ["a"; "b"]; ["a"; ""]; [""; "b"]; ["/"; "a"]; ["/"; ""];
     ["a/"; "b"]; ["a/"; ""]; [""; ""]; ["/"; "pkg"]; ["/"; "."]; ["."; "x.pyc"]]
  = [""; ""; "a"; "a/b"; "a"; "b"; "/a"; "/";
     "a/b"; "a"; ""; "/pkg"; "/"; "x.pyc"].
Proof. reflexivity. Qed.

Example Base_table :
  map path.Base [""; "."; "/."; "/"; "////"; "x/"; "abc"; "abc/def"; "a/b/.x"; "a/b/c."; "a/b/c.x"; "a/.."]
  = ["."; "."; "."; "/"; "/"; "x"; "abc"; "def"; ".x"; "c."; "c.x"; ".."].
Proof. reflexivity. Qed.

Example Dir_table :
  map path.Dir [""; "."; "/."; "/"; "////"; "/foo"; "x/"; "abc"; "abc/def"; "abc////def"; "a/b/.x"; "a/b/c."; "pkg/mod.py"]
  = ["."; "."; "/"; "/"; "/"; "/"; "x"; "."; "abc"; "abc"; "a/b"; "a/b"; "pkg"].
Proof. reflexivity. Qed.

Example HasSuffix_table :
  map (λ s, strings.HasSuffix s ".pyc") ["a.pyc"; ".pyc"; "pyc"; "a.py"; "d/x.pyc"; "a.pyc/x"; ""]
  = [true; true; false; false; true; false; false].
Proof. reflexivity. Qed.

Example Unix_epoch : time.Unix (time.FromUnix 0) = 0 ∧ time.IsZero (time.FromUnix 0) = false.
Proof. split; reflexivity. Qed.

(** [time.Unix(77, 5).UnixNano()], and the wrapped value Go gives for the
    zero time. *)
Example UnixNano_table :
  time.UnixNano {| time.sec := 77 + time.unixToInternal; time.nsec := 5 |} = 77000000005 ∧
  time.FromUnixNano 77000000005 = {| time.sec := 77 + time.unixToInternal; time.nsec := 5 |} ∧
  time.UnixNano {| time.sec := 0; time.nsec := 0 |} = -6795364578871345152.
Proof. repeat split; vm_compute; reflexivity. Qed.

Example fmt_d_table : map fmt.d [0; 7; -15; 1700000000] = ["0"; "7"; "-15"; "1700000000"].
Proof. reflexivity. Qed.

(** ** Strings *)

Lemma string_app_cons (c : ascii) (s t : string) : String c s +:+ t = String c (s +:+ t).
Proof. reflexivity. Qed.

Lemma string_app_nil_l (s : string) : "" +:+ s = s.
Proof. reflexivity. Qed.

Lemma string_app_assoc (s t u : string) : (s +:+ t) +:+ u = s +:+ t +:+ u.
Proof. induction s as [|c s IH]; [done|]. by rewrite !string_app_cons, IH. Qed.

Lemma has_slash_app (s t : string) :
  strings.has_slash (s +:+ t) = strings.has_slash s || strings.has_slash t.
Proof.
  induction s as [|c s IH]; [done|].
  rewrite string_app_cons. simpl. rewrite IH. by rewrite orb_assoc.
Qed.

Lemma Split_nonempty (s : string) : strings.Split s ≠ [].
Proof.
  induction s as [|c s IH]; simpl; [done|].
  destruct (strings.is_slash c); [done|].
  by destruct (strings.Split s).
Qed.

Lemma Split_app_slash (a b : string) :
  strings.Split (a +:+ "/" +:+ b) = strings.Split a ++ strings.Split b.
Proof.
  induction a as [|c a IH]; [done|].
  rewrite string_app_cons. simpl. rewrite IH.
  destruct (strings.is_slash c); [done|].
  pose proof (Split_nonempty a).
  by destruct (strings.Split a).
Qed.

Lemma Split_no_slash (n : string) :
  strings.has_slash n = false → strings.Split n = [n].
Proof.
  induction n as [|c n IH]; simpl; [done|].
  intros [Hc Hn]%orb_false_elim. rewrite Hc, (IH Hn). done.
Qed.

Lemma Join_cons (c : string) (cs : list string) :
  cs ≠ [] → strings.Join (c :: cs) = c +:+ "/" +:+ strings.Join cs.
Proof. by destruct cs. Qed.

Lemma Split_Join (cs : list string) :
  cs ≠ [] → Forall (λ c, strings.has_slash c = false) cs →
  strings.Split (strings.Join cs) = cs.
Proof.
  induction cs as [|c cs IH]; [done|].
  intros _ Hall. inversion Hall as [|? ? Hc Hcs]; subst.
  destruct cs as [|c' cs].
  - simpl. by apply Split_no_slash.
  - rewrite Join_cons by done. rewrite Split_app_slash, IH by done.
    by rewrite Split_no_slash.
Qed.

Lemma Join_app (cs1 cs2 : list string) :
  cs1 ≠ [] → cs2 ≠ [] →
  strings.Join (cs1 ++ cs2) = strings.Join cs1 +:+ "/" +:+ strings.Join cs2.
Proof.
  induction cs1 as [|c cs1 IH]; [done|].
  intros _ H2. destruct cs1 as [|c' cs1].
  - simpl app. by rewrite Join_cons.
  - change ((c :: c' :: cs1) ++ cs2) with (c :: ((c' :: cs1) ++ cs2)).
    rewrite Join_cons by done. rewrite IH by done.
    rewrite (Join_cons c (c' :: cs1)) by done.
    by rewrite !string_app_assoc.
Qed.

Lemma HasSuffix_after_slash (a n suffix : string) :
  strings.has_slash suffix = false →
  strings.HasSuffix (a +:+ "/" +:+ n) suffix = strings.HasSuffix n suffix.
Proof.
  intros Hs.
  assert (Hne : ∀ a', a' +:+ "/" +:+ n ≠ suffix).
  { intros a' Heq. rewrite <- Heq, has_slash_app in Hs.
    apply orb_false_elim in Hs as [_ Hs]. by rewrite string_app_cons in Hs. }
  induction a as [|c a IH].
  - rewrite string_app_nil_l, string_app_cons, string_app_nil_l.
    pose proof (Hne "") as H0. rewrite string_app_nil_l, string_app_cons, string_app_nil_l in H0.
    simpl. by rewrite decide_False.
  - rewrite string_app_cons. simpl. rewrite decide_False; [done|].
    rewrite <- string_app_cons. apply Hne.
Qed.

(** ** Paths of plain names *)

Lemma valid_name_no_slash (cs : list string) :
  Forall valid_name cs → Forall (λ c, strings.has_slash c = false) cs.
Proof. intros H. eapply Forall_impl; [exact H|]. by intros c (_ & _ & _ & ?). Qed.

Lemma clean_step_valid (rt : bool) (out : list string) (n : string) :
  valid_name n → path.clean_step rt out n = n :: out.
Proof.
  intros (? & ? & ? & _). unfold path.clean_step.
  by rewrite !decide_False.
Qed.

Lemma clean_fold_valid (rt : bool) (cs out : list string) :
  Forall valid_name cs →
  fold_left (path.clean_step rt) cs out = rev cs ++ out.
Proof.
  intros Hall. revert out.
  induction Hall as [|c cs Hc _ IH]; intros out; [done|].
  simpl. rewrite clean_step_valid, IH by done.
  by rewrite <- app_assoc.
Qed.

Lemma Join_valid_shape (cs : list string) :
  cs ≠ [] → Forall valid_name cs →
  ∃ ch rest, strings.Join cs = String ch rest ∧ strings.is_slash ch = false.
Proof.
  destruct cs as [|c cs]; [done|]. intros _ Hall.
  inversion Hall as [|? ? (Hne & _ & _ & Hsl) _]; subst.
  destruct c as [|ch c]; [done|].
  simpl in Hsl. apply orb_false_elim in Hsl as [Hch _].
  destruct cs as [|c' cs].
  - by exists ch, c.
  - rewrite Join_cons by done. rewrite string_app_cons. by eexists _, _.
Qed.

(** A path of plain names is clean already. *)
Lemma Clean_Join_valid (cs : list string) :
  cs ≠ [] → Forall valid_name cs →
  path.Clean (strings.Join cs) = strings.Join cs.
Proof.
  intros Hne Hall.
  destruct (Join_valid_shape cs Hne Hall) as (ch & rest & Heq & Hch).
  unfold path.Clean. rewrite decide_False by (by rewrite Heq).
  assert (path.rooted (strings.Join cs) = false) as -> by (by rewrite Heq).
  rewrite Split_Join by auto using valid_name_no_slash.
  unfold path.clean_elems. rewrite clean_fold_valid by done.
  rewrite app_nil_r, rev_involutive.
  by destruct cs.
Qed.

Lemma Join_two (a b : string) :
  a ≠ "" → b ≠ "" → path.Join [a; b] = path.Clean (a +:+ "/" +:+ b).
Proof.
  intros Ha Hb. unfold path.Join.
  rewrite (filter_cons_True _ a) by done.
  rewrite (filter_cons_True _ b) by done.
  by rewrite filter_nil.
Qed.

(** Joining two paths of plain names puts one slash between them. *)
Lemma Join_Join_valid (ds cs : list string) :
  ds ≠ [] → cs ≠ [] → Forall valid_name ds → Forall valid_name cs →
  path.Join [strings.Join ds; strings.Join cs] = strings.Join (ds ++ cs).
Proof.
  intros Hd Hc Hds Hcs.
  destruct (Join_valid_shape ds Hd Hds) as (ch1 & r1 & Heq1 & _).
  destruct (Join_valid_shape cs Hc Hcs) as (ch2 & r2 & Heq2 & _).
  rewrite Join_two by (by rewrite ?Heq1, ?Heq2).
  rewrite <- Join_app by done.
  apply Clean_Join_valid; [by destruct ds|by apply Forall_app].
Qed.

(** Joining a path of plain names to [.] gives it back. *)
Lemma Join_dot_valid (cs : list string) :
  cs ≠ [] → Forall valid_name cs →
  path.Join ["."; strings.Join cs] = strings.Join cs.
Proof.
  intros Hc Hcs.
  destruct (Join_valid_shape cs Hc Hcs) as (ch2 & r2 & Heq2 & _).
  rewrite Join_two by (by rewrite ?Heq2).
  unfold path.Clean. rewrite decide_False by done.
  change (path.rooted ("." +:+ "/" +:+ strings.Join cs)) with false.
  rewrite Split_app_slash, Split_Join by auto using valid_name_no_slash.
  unfold path.clean_elems. simpl fold_left.
  change (path.clean_step false [] ".") with (@nil string).
  rewrite clean_fold_valid by done.
  rewrite app_nil_r, rev_involutive.
  by destruct cs.
Qed.

(** [fs.WalkDir] names the entry [n] of the directory at [rel_path cs]. *)
Lemma Join_rel_path (cs : list string) (n : string) :
  Forall valid_name cs → valid_name n →
  path.Join [rel_path cs; n] = rel_path (cs ++ [n]).
Proof.
  intros Hcs Hn.
  assert (rel_path (cs ++ [n]) = strings.Join (cs ++ [n])) as -> by (by destruct cs).
  destruct cs as [|c cs].
  - apply (Join_dot_valid [n]); [done|by constructor].
  - apply (Join_Join_valid (c :: cs) [n]); [done|done|done|by constructor].
Qed.

Lemma rel_path_not_dot (cs : list string) (n : string) :
  Forall valid_name cs → valid_name n → rel_path (cs ++ [n]) ≠ ".".
Proof.
  intros Hcs Hn Heq.
  assert (Hall : Forall valid_name (cs ++ [n])) by (apply Forall_app; auto).
  assert (rel_path (cs ++ [n]) = strings.Join (cs ++ [n])) as Hr by (by destruct cs).
  rewrite Hr in Heq.
  pose proof (Split_Join (cs ++ [n])) as HS.
  rewrite Heq in HS. simpl in HS.
  destruct cs as [|c cs].
  - simpl in Heq. destruct Hn as (_ & ? & _). done.
  - specialize (HS ltac:(done) (valid_name_no_slash _ Hall)).
    destruct cs; simpl in HS; discriminate.
Qed.

Lemma HasSuffix_rel_path (cs : list string) (n suffix : string) :
  strings.has_slash suffix = false →
  strings.HasSuffix (rel_path (cs ++ [n])) suffix = strings.HasSuffix n suffix.
Proof.
  intros Hs. destruct cs as [|c cs]; [done|].
  assert (rel_path ((c :: cs) ++ [n]) = strings.Join ((c :: cs) ++ [n])) as -> by done.
  rewrite Join_app by done. simpl (strings.Join [n]).
  by apply HasSuffix_after_slash.
Qed.

(** ** The walk *)

Lemma Node_nested_ind (P : Node → Prop) :
  (∀ n st c, P (File n st c)) →
  (∀ n st es, Forall P es → P (Directory n st es)) →
  ∀ d, P d.
Proof.
  intros Hf Hd. fix IH 1. intros [n st c|n st es]; [apply Hf|].
  apply Hd. induction es as [|e es IHes]; constructor; [apply IH|apply IHes].
Qed.

Lemma first_fault_app (flt : Op → option error) (l1 l2 : list Op) :
  first_fault flt (l1 ++ l2) =
  match first_fault flt l1 with
  | Some e => Some e
  | None => first_fault flt l2
  end.
Proof.
  induction l1 as [|op l1 IH]; [done|].
  simpl. by destruct (flt op).
Qed.

Lemma first_fault_Some (flt : Op → option error) (ops : list Op) (e : error) :
  first_fault flt ops = Some e → ∃ op, op ∈ ops ∧ flt op = Some e.
Proof.
  induction ops as [|op ops IH]; [done|]. simpl.
  destruct (flt op) as [e'|] eqn:Hop.
  - intros [= ->]. exists op. split; [left|done].
  - intros (op' & ? & ?)%IH. exists op'. split; [by right|done].
Qed.

Lemma first_fault_elem (flt : Op → option error) (ops : list Op) (op : Op) :
  op ∈ ops → is_Some (flt op) → is_Some (first_fault flt ops).
Proof.
  induction 1 as [op ops|op op' ops _ IH]; intros Hop; simpl.
  - destruct Hop as [e ->]. by eexists.
  - destruct (flt op'); [by eexists|auto].
Qed.

(** What one call of the walk function does to the map. *)
Lemma walkFn_visit (w : World) (inp : FileReference) (p : string) (d : Node) (vfs : VFS) :
  walkFn w inp p (Some d) None vfs =
  match first_fault (fault w) (visit_ops (p, d)) with
  | Some e => (Err e, vfs)
  | None => (Ok tt, if picked (p, d) then add_reference inp vfs (p, d) else vfs)
  end.
Proof.
  unfold walkFn, visit_ops, picked, add_reference, reference, translate. simpl.
  destruct (decide (p = ".")) as [->|Hp].
  - by rewrite bool_decide_eq_true_2.
  - rewrite bool_decide_eq_false_2 by done. simpl.
    destruct (strings.HasSuffix p ".pyc"), d as [n st c|n st es]; simpl; try done;
      destruct (fault w (OpInfo p)); try done;
      destruct (fault w (OpOpen p)); try done;
      destruct (fault w (OpReadAll p)); done.
Qed.

Lemma walkFn_report (w : World) (inp : FileReference) (p : string)
    (d : option Node) (e : error) (vfs : VFS) :
  walkFn w inp p d (Some e) vfs = (Err e, vfs).
Proof. done. Qed.

Local Arguments walkFn : simpl never.
Local Arguments visit_ops : simpl never.
Local Arguments picked : simpl never.

Lemma walkEntries_agrees (w : World) (inp : FileReference) (ds : list Node) :
  Forall (λ d, ∀ p vfs,
            walk_agrees w inp (walk_ops p d) (entries p d) vfs
              (walkDir (fault w) (walkFn w inp) p d vfs)) ds →
  ∀ p vfs,
    walk_agrees w inp
      (flat_map (λ d1, walk_ops (path.Join [p; node_name d1]) d1) ds)
      (flat_map (λ d1, entries (path.Join [p; node_name d1]) d1) ds)
      vfs
      (walkEntries (walkDir (fault w) (walkFn w inp)) p ds vfs).
Proof.
  induction 1 as [|d1 ds Hd1 _ IH]; intros p vfs; [done|].
  unfold walk_agrees in *. simpl.
  rewrite first_fault_app, filter_app, fold_left_app.
  specialize (Hd1 (path.Join [p; node_name d1]) vfs).
  destruct (first_fault (fault w) (walk_ops _ d1)) as [e|].
  - destruct (walkDir _ _ _ d1 vfs) as [[[]|e'|m] v1]; simpl in *; congruence.
  - rewrite Hd1. apply IH.
Qed.

Lemma walkDir_agrees (w : World) (inp : FileReference) (d : Node) :
  ∀ p vfs,
    walk_agrees w inp (walk_ops p d) (entries p d) vfs
      (walkDir (fault w) (walkFn w inp) p d vfs).
Proof.
  induction d as [n st c|n st es IH] using Node_nested_ind; intros p vfs.
  - unfold walk_agrees. simpl. rewrite app_nil_r, walkFn_visit.
    destruct (first_fault _ (visit_ops _)); [done|].
    rewrite filter_cons, filter_nil.
    by destruct (picked _).
  - pose proof (walkEntries_agrees w inp es IH p) as Hes.
    unfold walk_agrees in *. simpl.
    rewrite first_fault_app, walkFn_visit.
    destruct (first_fault _ (visit_ops _)); [done|].
    simpl. rewrite filter_cons.
    destruct (fault w (OpReadDir p)) as [e|]; [done|].
    set (vfs1 := if picked _ then _ else vfs).
    specialize (Hes vfs1).
    destruct (first_fault _ (flat_map _ es)); [done|].
    rewrite Hes. subst vfs1.
    by destruct (picked _).
Qed.

(** ** The calls of the closure, one by one *)

Local Arguments Z.ldiff : simpl never.
Local Arguments Z.lor : simpl never.

Ltac unfold_M :=
  unfold bind, emit, may_fail, try_, try, throw, ret in *.

Lemma MkdirTemp_eq (dir pattern : string) (w : World) (s : State) :
  os.MkdirTemp dir pattern w s =
  let s' := log (EvMkdirTemp dir pattern) s in
  match MkdirTemp_result w dir pattern with
  | inl e => (Err e, s')
  | inr tmpdir =>
      match files s !! tmpdir with
      | Some _ => (Err EEXIST, s')
      | None =>
          (Ok tmpdir,
           set_files s'
             (<[tmpdir := Directory "."
                  {| st_mode := Z.lor fs.ModeDir (Z.ldiff 448 (umask w));
                     st_size := 0; st_atime := now w; st_mtime := now w |} []]>
                (files s)))
      end
  end.
Proof.
  unfold os.MkdirTemp. unfold_M. simpl.
  destruct (MkdirTemp_result w dir pattern); reflexivity.
Qed.

(** A workspace that was just created is empty, and was not there before. *)
Lemma MkdirTemp_ok (dir pattern : string) (w : World) (s s1 : State) (tmpdir : string) :
  os.MkdirTemp dir pattern w s = (Ok tmpdir, s1) →
  files s !! tmpdir = None ∧
  (∃ st, files s1 = <[tmpdir := Directory "." st []]> (files s)) ∧
  trace s1 = trace s ++ [EvMkdirTemp dir pattern].
Proof.
  rewrite MkdirTemp_eq. simpl.
  destruct (MkdirTemp_result w dir pattern) as [e|d]; [done|].
  destruct (files s !! d) eqn:Hd; [done|].
  intros [= <- <-]. simpl. eauto.
Qed.

Lemma WriteFile_eq (name : filepath.HostPath) (data : list byte) (perm : fs.FileMode)
    (w : World) (s : State) :
  os.WriteFile name data perm w s =
  let s' := log (EvWriteFile name data perm) s in
  match fault w OpWriteFile with
  | Some e => (Err e, s')
  | None =>
      match files s !! filepath.hp_dir name with
      | Some (Directory n st es) =>
          let rel := filepath.hp_rel name in
          if decide (rel = "." ∨ rel = ".." ∨ rel = "/" ∨ rel = "") then (Err EISDIR, s')
          else if strings.has_slash rel then (Err ENOENT, s')
          else
            match os.put_file w rel data perm es with
            | inl err => (Err err, s')
            | inr es' =>
                (Ok tt, set_files s' (<[filepath.hp_dir name := Directory n st es']> (files s)))
            end
      | Some (File _ _ _) => (Err ENOTDIR, s')
      | None => (Err ENOENT, s')
      end
  end.
Proof.
  unfold os.WriteFile. unfold_M. simpl.
  destruct (fault w OpWriteFile); reflexivity.
Qed.

Lemma Chtimes_eq (name : filepath.HostPath) (atime mtime : time.Time)
    (w : World) (s : State) :
  os.Chtimes name atime mtime w s =
  let s' := log (EvChtimes name atime mtime) s in
  match fault w OpChtimes with
  | Some e => (Err e, s')
  | None =>
      match files s !! filepath.hp_dir name with
      | Some (Directory n st es) =>
          match os.set_times (filepath.hp_rel name) atime mtime es with
          | inl err => (Err err, s')
          | inr es' =>
              (Ok tt, set_files s' (<[filepath.hp_dir name := Directory n st es']> (files s)))
          end
      | Some (File _ _ _) => (Err ENOTDIR, s')
      | None => (Err ENOENT, s')
      end
  end.
Proof.
  unfold os.Chtimes. unfold_M. simpl.
  destruct (fault w OpChtimes); reflexivity.
Qed.

Lemma Run_eq (c : exec.Cmd) (w : World) (s : State) :
  dexec.Run c w s =
  let s' := log (EvRun c (dir_entries s (exec.Dir c))) s in
  match fault w OpRun with
  | Some e => (Err e, s')
  | None =>
      match files s !! exec.Dir c with
      | Some (Directory n st es) =>
          match external w c es (now w) with
          | inl err => (Err err, s')
          | inr es' =>
              (Ok tt, set_files s' (<[exec.Dir c := Directory n st es']> (files s)))
          end
      | Some (File _ _ _) => (Err ENOTDIR, s')
      | None => (Err ENOENT, s')
      end
  end.
Proof.
  unfold dexec.Run. unfold_M. simpl.
  destruct (fault w OpRun); reflexivity.
Qed.

(** ** The three phases *)

Lemma command_Path exe args clampTime inp tmpdir environ :
  exec.Path (command exe args clampTime inp tmpdir environ) = exe.
Proof. unfold command. by destruct (time.IsZero clampTime). Qed.

Lemma command_Args exe args clampTime inp tmpdir environ :
  exec.Args (command exe args clampTime inp tmpdir environ) =
  exe :: args ++ ["-p"; path.Join ["/"; path.Dir (FullName inp)]; Name inp].
Proof. unfold command. by destruct (time.IsZero clampTime). Qed.

Lemma command_Dir exe args clampTime inp tmpdir environ :
  exec.Dir (command exe args clampTime inp tmpdir environ) = tmpdir.
Proof. unfold command. by destruct (time.IsZero clampTime). Qed.

Lemma command_Env exe args clampTime inp tmpdir environ :
  exec.Env (command exe args clampTime inp tmpdir environ) =
  if time.IsZero clampTime then None
  else Some (environ ++ ["PYTHONHASHSEED=0";
                         "SOURCE_DATE_EPOCH=" +:+ fmt.d (time.Unix clampTime)]).
Proof. unfold command. by destruct (time.IsZero clampTime). Qed.

(** [collect] reads only: it stops at the first failing call, or returns
    the map of the whole tree. *)
Lemma collect_eq (inp : FileReference) (tmpdir : string) (w : World) (s : State) (root : Node) :
  files s !! tmpdir = Some root →
  collect inp tmpdir w s =
  (match first_fault (fault w) (collect_ops root) with
   | Some e => Err e
   | None => Ok (full_map inp root)
   end, s).
Proof.
  intros Hroot. unfold collect, os.DirFS, WalkDir, collect_ops, full_map.
  rewrite Hroot. simpl.
  destruct (fault w (OpStat ".")) as [e|]; [done|].
  pose proof (walkDir_agrees w inp root "." ∅) as H.
  unfold walk_agrees in H.
  destruct (first_fault (fault w) (walk_ops "." root)) as [e|].
  - destruct (walkDir _ _ _ root ∅) as [[[]|e'|m] v]; simpl in H; congruence.
  - by rewrite H.
Qed.

Lemma collect_missing (inp : FileReference) (tmpdir : string) (w : World) (s : State) :
  files s !! tmpdir = None →
  ∃ e, collect inp tmpdir w s = (Err e, s).
Proof.
  intros Hroot. unfold collect, os.DirFS, WalkDir. rewrite Hroot.
  destruct (fault w (OpStat ".")) as [e|]; rewrite walkFn_report; eauto.
Qed.

Lemma collect_state (inp : FileReference) (tmpdir : string) (w : World) (s s' : State)
    (r : result VFS) :
  collect inp tmpdir w s = (r, s') → s' = s ∧ ∀ msg, r ≠ Panic msg.
Proof.
  destruct (files s !! tmpdir) as [root|] eqn:Hroot.
  - rewrite (collect_eq _ _ _ _ root Hroot).
    destruct (first_fault (fault w) (collect_ops root));
      intros [= <- <-]; split; done.
  - destruct (collect_missing inp tmpdir w s Hroot) as [e ->].
    by intros [= <- <-].
Qed.

(** [setup] calls [WriteFile] and [Chtimes] at most, and does not panic. *)
Lemma setup_trace (inp : FileReference) (tmpdir : string) (w : World) (s s' : State)
    (r : result unit) :
  setup inp tmpdir w s = (r, s') →
  (∃ evs, trace s' = trace s ++ evs ∧ Forall not_run evs) ∧ ∀ msg, r ≠ Panic msg.
Proof.
  unfold setup, bind at 1 2 3, try, try_, throw, ret.
  destruct (Open inp) as [e|rc].
  { intros [= <- <-]. split; [exists []; by rewrite app_nil_r|done]. }
  destruct (ReadAll rc) as [e|data].
  { intros [= <- <-]. split; [exists []; by rewrite app_nil_r|done]. }
  destruct (Close rc) as [e|].
  { intros [= <- <-]. split; [exists []; by rewrite app_nil_r|done]. }
  unfold bind. rewrite WriteFile_eq. simpl.
  set (name := filepath.Join tmpdir _).
  assert (Hw : not_run (EvWriteFile name data 438)) by done.
  assert (Hc : not_run (EvChtimes name (ModTime inp) (ModTime inp))) by done.
  destruct (fault w OpWriteFile).
  { intros [= <- <-]. split; [exists [EvWriteFile name data 438]; auto|done]. }
  destruct (files s !! tmpdir) as [[?|n st es]|];
    try (intros [= <- <-]; split; [exists [EvWriteFile name data 438]; auto|done]).
  destruct (decide _).
  { intros [= <- <-]. split; [exists [EvWriteFile name data 438]; auto|done]. }
  destruct (strings.has_slash _).
  { intros [= <- <-]. split; [exists [EvWriteFile name data 438]; auto|done]. }
  destruct (os.put_file _ _ _ _ _).
  { intros [= <- <-]. split; [exists [EvWriteFile name data 438]; auto|done]. }
  rewrite Chtimes_eq. simpl.
  assert (Hboth : ∀ f1 f2,
    trace (log (EvChtimes name (ModTime inp) (ModTime inp))
             (set_files (log (EvWriteFile name data 438) s) f1)) =
    trace s ++ [EvWriteFile name data 438; EvChtimes name (ModTime inp) (ModTime inp)] ∧
    trace (set_files (log (EvChtimes name (ModTime inp) (ModTime inp))
             (set_files (log (EvWriteFile name data 438) s) f1)) f2) =
    trace s ++ [EvWriteFile name data 438; EvChtimes name (ModTime inp) (ModTime inp)]).
  { intros. simpl. by rewrite <- !app_assoc. }
  destruct (fault w OpChtimes).
  { intros [= <- <-]. split; [eexists; split; [apply (Hboth ∅ ∅)|auto]|done]. }
  rewrite lookup_insert_eq.
  destruct (os.set_times _ _ _ _).
  { intros [= <- <-]. split; [eexists; split; [apply (Hboth ∅ ∅)|auto]|done]. }
  intros [= <- <-]. split; [eexists; split; [apply (Hboth ∅ ∅)|auto]|done].
Qed.

Lemma since_app (s s' : State) (evs : list Event) :
  trace s' = trace s ++ evs → since s s' = evs.
Proof. intros H. unfold since. rewrite H. apply drop_app_length. Qed.

(** When [setup] succeeds in a fresh workspace, the workspace holds the
    input under its base name, with both times set. *)
Lemma setup_ok (inp : FileReference) (tmpdir : string) (w : World) (s s' : State)
    (n : string) (st : Stat) :
  files s !! tmpdir = Some (Directory n st []) →
  setup inp tmpdir w s = (Ok tt, s') →
  ∃ rc data,
    Open inp = inr rc ∧ ReadAll rc = inr data ∧ Close rc = None ∧
    files s' = <[tmpdir := Directory n st [input_file w inp data]]> (files s) ∧
    trace s' = trace s ++
      [EvWriteFile (filepath.Join tmpdir (path.Base (FullName inp))) data 438;
       EvChtimes (filepath.Join tmpdir (path.Base (FullName inp))) (ModTime inp) (ModTime inp)].
Proof.
  intros Hdir.
  unfold setup, bind at 1 2 3, try, try_, throw, ret.
  destruct (Open inp) as [e|rc] eqn:HO; [done|].
  destruct (ReadAll rc) as [e|data] eqn:HR; [done|].
  destruct (Close rc) as [e|] eqn:HC; [done|].
  unfold bind. rewrite WriteFile_eq. simpl. rewrite Hdir.
  destruct (fault w OpWriteFile); [done|].
  destruct (decide _); [done|].
  destruct (strings.has_slash _); [done|].
  simpl. rewrite Chtimes_eq. simpl.
  destruct (fault w OpChtimes); [done|].
  rewrite lookup_insert_eq. simpl.
  rewrite decide_True by done.
  intros [= <-]. exists rc, data. simpl.
  rewrite insert_insert_eq, <- app_assoc. by repeat split.
Qed.

(** [invoke] makes one call: it runs the command in the workspace. *)
Lemma invoke_trace exe args clampTime (inp : FileReference) (tmpdir : string)
    (w : World) (s s' : State) (r : result unit) :
  invoke exe args clampTime inp tmpdir w s = (r, s') →
  trace s' = trace s ++
    [EvRun (command exe args clampTime inp tmpdir (Environ w)) (dir_entries s tmpdir)] ∧
  ∀ msg, r ≠ Panic msg.
Proof.
  unfold invoke, bind at 1, ret. rewrite Run_eq. simpl.
  rewrite command_Dir.
  destruct (fault w OpRun); [by intros [= <- <-]|].
  destruct (files s !! tmpdir) as [[?|n st es]|]; try by intros [= <- <-].
  destruct (external w _ _ _); by intros [= <- <-].
Qed.

(** When [invoke] succeeds, the external program has rewritten the entries
    of the workspace. *)
Lemma invoke_ok exe args clampTime (inp : FileReference) (tmpdir : string)
    (w : World) (s s' : State) :
  invoke exe args clampTime inp tmpdir w s = (Ok tt, s') →
  ∃ n st es es',
    files s !! tmpdir = Some (Directory n st es) ∧
    external w (command exe args clampTime inp tmpdir (Environ w)) es (now w) = inr es' ∧
    files s' = <[tmpdir := Directory n st es']> (files s).
Proof.
  unfold invoke, bind at 1, ret. rewrite Run_eq. simpl.
  rewrite command_Dir.
  destruct (fault w OpRun); [done|].
  destruct (files s !! tmpdir) as [[?|n st es]|]; [done| |done].
  destruct (external w _ _ _) as [e|es'] eqn:Hext; [done|].
  intros [= <-]. by exists n, st, es, es'.
Qed.

(** ** The closure as a whole *)

Lemma maybeSetErr_first (e : error) (rm : option error) :
  maybeSetErr (Some e) rm = Some e.
Proof. unfold maybeSetErr. by rewrite (bool_decide_eq_false_2 (Some e = None)), andb_false_r. Qed.

Lemma maybeSetErr_none (rm : option error) : maybeSetErr None rm = rm.
Proof. unfold maybeSetErr. by destruct rm. Qed.

Lemma body_cases exe args clampTime (inp : FileReference) (tmpdir : string)
    (w : World) (s s' : State) (r : result VFS) :
  body exe args clampTime inp tmpdir w s = (r, s') →
  (∃ E, r = Err E ∧ phase_fails exe args clampTime inp tmpdir w s E) ∨
  (∃ vfs s1 s2, r = Ok vfs ∧ s' = s2 ∧
     setup inp tmpdir w s = (Ok tt, s1) ∧
     invoke exe args clampTime inp tmpdir w s1 = (Ok tt, s2) ∧
     collect inp tmpdir w s2 = (Ok vfs, s2)).
Proof.
  unfold body, bind, phase_fails.
  destruct (setup inp tmpdir w s) as [[[]|e|m] s1] eqn:Hs.
  - destruct (invoke exe args clampTime inp tmpdir w s1) as [[[]|e|m] s2] eqn:Hi.
    + destruct (collect inp tmpdir w s2) as [rc sc] eqn:Hc.
      destruct (collect_state _ _ _ _ _ _ Hc) as [-> Hnp].
      destruct rc as [vfs|e|m]; intros [= <- <-].
      * right. by exists vfs, s1, s2.
      * left. exists e. split; [done|]. right. right. by exists s1, s2, s2.
      * by destruct (Hnp m).
    + intros [= <- <-]. left. exists e. split; [done|]. right. left. by exists s1, s2.
    + by destruct (proj2 (invoke_trace _ _ _ _ _ _ _ _ _ Hi) m).
  - intros [= <- <-]. left. exists e. split; [done|]. left. by exists s1.
  - by destruct (proj2 (setup_trace _ _ _ _ _ _ Hs) m).
Qed.

Lemma body_fails exe args clampTime (inp : FileReference) (tmpdir : string)
    (w : World) (s : State) (E : error) :
  phase_fails exe args clampTime inp tmpdir w s E →
  (body exe args clampTime inp tmpdir w s).1 = Err E.
Proof.
  unfold body, bind.
  intros [(s' & ->)|[(s1 & s' & -> & ->)|(s1 & s2 & s' & -> & -> & ->)]]; done.
Qed.

Lemma phase_fails_body exe args clampTime (inp : FileReference) (tmpdir : string)
    (w : World) (s : State) (E : error) :
  (body exe args clampTime inp tmpdir w s).1 = Err E →
  phase_fails exe args clampTime inp tmpdir w s E.
Proof.
  destruct (body exe args clampTime inp tmpdir w s) as [r s'] eqn:Hb.
  destruct (body_cases _ _ _ _ _ _ _ _ _ Hb) as [(E' & -> & Hf)|(vfs & ? & ? & -> & _)];
    simpl; [by intros [= <-]|done].
Qed.

(** The calls of [body]: a run, if there is one, comes after a successful
    [setup] and is the run of [command] in the workspace as it is then. *)
Lemma body_trace exe args clampTime (inp : FileReference) (tmpdir : string)
    (w : World) (s s' : State) (r : result VFS) :
  body exe args clampTime inp tmpdir w s = (r, s') →
  ∃ evs, trace s' = trace s ++ evs ∧
    ∀ c cwd, EvRun c cwd ∈ evs →
      ∃ s1, setup inp tmpdir w s = (Ok tt, s1) ∧
            c = command exe args clampTime inp tmpdir (Environ w) ∧
            cwd = dir_entries s1 tmpdir.
Proof.
  unfold body, bind.
  destruct (setup inp tmpdir w s) as [rs s1] eqn:Hs.
  destruct (setup_trace _ _ _ _ _ _ Hs) as [(evs & Ht & Hnr) _].
  assert (Hno : ∀ c cwd, EvRun c cwd ∉ evs).
  { intros c cwd Hin. rewrite Forall_forall in Hnr. by apply (Hnr _ Hin c cwd). }
  destruct rs as [[]|e|m]; [|intros [= <- <-]; exists evs; split; [done|];
                              intros c cwd Hin; by destruct (Hno c cwd)..].
  destruct (invoke exe args clampTime inp tmpdir w s1) as [ri s2] eqn:Hi.
  destruct (invoke_trace _ _ _ _ _ _ _ _ _ Hi) as [Hti _].
  assert (Hall : ∀ c cwd,
    EvRun c cwd ∈ evs ++ [EvRun (command exe args clampTime inp tmpdir (Environ w))
                            (dir_entries s1 tmpdir)] →
    ∃ s1', (Ok (), s1) = (Ok (), s1') ∧
           c = command exe args clampTime inp tmpdir (Environ w) ∧
           cwd = dir_entries s1' tmpdir).
  { intros c cwd [Hin|Hin]%elem_of_app; [by destruct (Hno c cwd)|].
    apply list_elem_of_singleton in Hin as [= -> ->]. by exists s1. }
  assert (Htr : trace s2 = trace s ++ evs ++
            [EvRun (command exe args clampTime inp tmpdir (Environ w))
               (dir_entries s1 tmpdir)]).
  { by rewrite Hti, Ht, <- app_assoc. }
  destruct ri as [[]|e|m]; [|intros [= <- <-]; eauto..].
  destruct (collect inp tmpdir w s2) as [rc sc] eqn:Hc.
  destruct (collect_state _ _ _ _ _ _ Hc) as [-> _].
  destruct rc; intros [= <- <-]; eauto.
Qed.

Lemma RemoveAll_eq (p : string) (w : World) (s : State) :
  os.RemoveAll p w s =
  (fault w OpRemoveAll,
   {| files := match fault w OpRemoveAll with
               | Some _ => alter (leftover w) p (files s)
               | None => delete p (files s)
               end;
      trace := trace s ++ [EvRemoveAll p] |}).
Proof. unfold os.RemoveAll. by destruct (fault w OpRemoveAll). Qed.

(** The closure, with the deferred removal spelled out. *)
Lemma compiler_eq exe args clampTime (inp : FileReference) (w : World) (s : State) :
  compiler exe args clampTime inp w s =
  match os.MkdirTemp "" "ocibuild-pycompile." w s with
  | (Ok tmpdir, s1) =>
      let r := body exe args clampTime inp tmpdir w s1 in
      (match r.1 with
       | Ok vfs => Returns {| compiled := Some vfs; err := fault w OpRemoveAll |}
       | Err e => Returns {| compiled := None; err := Some e |}
       | Panic msg => Panics msg
       end,
       {| files := match fault w OpRemoveAll with
                   | Some _ => alter (leftover w) tmpdir (files r.2)
                   | None => delete tmpdir (files r.2)
                   end;
          trace := trace r.2 ++ [EvRemoveAll tmpdir] |})
  | (Err e, s1) => (Returns {| compiled := None; err := Some e |}, s1)
  | (Panic msg, s1) => (Panics msg, s1)
  end.
Proof.
  unfold compiler, closure.
  destruct (os.MkdirTemp _ _ w s) as [[tmpdir|e|m] s1]; [|done..].
  change (closure_body exe args (Some context.Background) clampTime (Some inp) tmpdir w s1)
    with (body exe args clampTime inp tmpdir w s1).
  destruct (body _ _ _ _ _ w s1) as [r s2]. rewrite RemoveAll_eq. simpl.
  destruct r; by rewrite ?maybeSetErr_first, ?maybeSetErr_none.
Qed.

(** ** Which entries are picked *)

Lemma well_named_Directory (n : string) (st : Stat) (es : list Node) :
  well_named (Directory n st es) ↔
  Forall (λ d1, valid_name (node_name d1) ∧ well_named d1) es.
Proof.
  simpl. induction es as [|d1 es IH]; [by split|].
  split.
  - intros (? & ? & Hes). constructor; [done|by apply IH].
  - intros Hall. inversion Hall as [|? ? [? ?] Hes]; subst.
    split; [done|]. split; [done|by apply IH].
Qed.

Lemma entries_head (p : string) (d : Node) :
  entries p d = (p, d) :: tail (entries p d).
Proof. by destruct d. Qed.

(** Below a tree with plain names every entry sits at the path spelled by
    the names above it and its own. *)
Lemma entries_below_paths (d : Node) :
  ∀ cs, Forall valid_name cs → well_named d →
    Forall (λ pd, ∃ cs', Forall valid_name cs' ∧ valid_name (node_name pd.2) ∧
                         pd.1 = rel_path (cs ++ cs' ++ [node_name pd.2]))
      (tail (entries (rel_path cs) d)).
Proof.
  induction d as [n st c|n st es IH] using Node_nested_ind; intros cs Hcs Hwn.
  { constructor. }
  apply well_named_Directory in Hwn. simpl.
  induction es as [|d1 es IHes]; [constructor|].
  inversion IH as [|? ? IH1 IHrest]; subst.
  inversion Hwn as [|? ? [Hn1 Hw1] Hwrest]; subst.
  simpl. apply Forall_app. split; [|by apply IHes].
  rewrite Join_rel_path by done. rewrite entries_head.
  constructor.
  - exists []. by split.
  - specialize (IH1 (cs ++ [node_name d1])).
    eapply Forall_impl;
      [apply IH1; [apply Forall_app; split; [done|by constructor]|done]|].
    intros pd (cs' & Hcs' & Hn & Hp). exists (node_name d1 :: cs').
    split; [by constructor|]. split; [done|].
    by rewrite Hp, <- app_assoc.
Qed.

Lemma picked_selected (pd : string * Node) (cs : list string) :
  Forall valid_name cs → valid_name (node_name pd.2) →
  pd.1 = rel_path (cs ++ [node_name pd.2]) →
  picked pd = selected pd.
Proof.
  intros Hcs Hn Hp. unfold picked, selected.
  rewrite bool_decide_eq_false_2
    by (rewrite Hp; by apply rel_path_not_dot).
  rewrite Hp, HasSuffix_rel_path by done.
  by destruct (strings.HasSuffix _ _), (node_IsDir _).
Qed.

Lemma filter_Forall_ext {A} (P Q : A → Prop) `{∀ x, Decision (P x)} `{∀ x, Decision (Q x)}
    (l : list A) :
  Forall (λ x, P x ↔ Q x) l → filter P l = filter Q l.
Proof.
  induction 1 as [|x l Hx _ IH]; [done|].
  rewrite !filter_cons, IH. by apply decide_ext.
Qed.

(** On plain names the test of the code selects what the description
    selects: the test on the path is a test on the name. *)
Lemma full_map_collected (inp : FileReference) (root : Node) :
  well_named root → full_map inp root = collected inp root.
Proof.
  intros Hwn. unfold full_map, collected, entries_below.
  rewrite entries_head, filter_cons. simpl. f_equal.
  apply filter_Forall_ext.
  eapply Forall_impl; [apply (entries_below_paths root [] (Forall_nil_2 _) Hwn)|].
  intros pd (cs' & Hcs' & Hn & Hp). simpl in Hp.
  by rewrite (picked_selected pd cs').
Qed.

Lemma first_fault_clear (flt : Op → option error) (ops : list Op) :
  (∀ op, op ∈ ops → flt op = None) → first_fault flt ops = None.
Proof.
  induction ops as [|op ops IH]; [done|]. intros H. simpl.
  rewrite (H op) by left. apply IH. intros op' ?. apply H. by right.
Qed.

(** What a sequence of insertions leaves at a key. *)
Lemma fold_add_lookup (inp : FileReference) (l : list (string * Node)) (vfs : VFS)
    (k : string) (ref : InMemFileReference) :
  fold_left (add_reference inp) l vfs !! k = Some ref →
  vfs !! k = Some ref ∨
  ∃ pd, pd ∈ l ∧ k = translate inp pd.1 ∧ ref = reference inp pd.
Proof.
  revert vfs. induction l as [|pd l IH]; intros vfs; [by left|].
  simpl. intros [Hk|(pd' & ? & ? & ?)]%IH.
  - unfold add_reference in Hk.
    destruct (decide (translate inp pd.1 = k)) as [<-|Hne].
    + rewrite lookup_insert_eq in Hk. injection Hk as <-.
      right. exists pd. split; [left|done].
    + rewrite lookup_insert_ne in Hk by done. by left.
  - right. exists pd'. split; [by right|done].
Qed.

Lemma fold_add_is_Some (inp : FileReference) (l : list (string * Node)) (vfs : VFS)
    (k : string) :
  is_Some (vfs !! k) ∨ (∃ pd, pd ∈ l ∧ k = translate inp pd.1) →
  is_Some (fold_left (add_reference inp) l vfs !! k).
Proof.
  revert vfs. induction l as [|pd l IH]; intros vfs.
  - intros [?|(pd & Hin & _)]; [done|by apply elem_of_nil in Hin].
  - simpl. intros [Hk|(pd' & Hin & ->)]; apply IH.
    + left. unfold add_reference.
      destruct (decide (translate inp pd.1 = k)) as [<-|Hne].
      * by rewrite lookup_insert_eq.
      * by rewrite lookup_insert_ne.
    + apply elem_of_cons in Hin as [->|Hin].
      * left. unfold add_reference. by rewrite lookup_insert_eq.
      * right. by exists pd'.
Qed.

(** ** The virtual directory of a source artifact *)

Lemma path_Split_no_slash (b : string) :
  strings.has_slash b = false → path.Split b = ("", b).
Proof.
  induction b as [|c b IH]; [done|]. simpl.
  intros [Hc Hb]%orb_false_elim. by rewrite (IH Hb), Hc.
Qed.

Lemma path_Split_app (a b : string) :
  strings.has_slash b = false →
  path.Split (a +:+ "/" +:+ b) = (a +:+ "/", b).
Proof.
  intros Hb. induction a as [|c a IH].
  - rewrite !string_app_nil_l, string_app_cons, string_app_nil_l. simpl.
    by rewrite (path_Split_no_slash b Hb).
  - change (String c a +:+ "/" +:+ b) with (String c (a +:+ "/" +:+ b)).
    simpl. rewrite IH.
    destruct (strings.is_slash c); [done|].
    rewrite decide_False; [done|]. by destruct a.
Qed.

(** The directory part of [d1/.../dk/base] is [d1/.../dk]. *)
Lemma Dir_of_joined (ds : list string) (base : string) :
  ds ≠ [] → Forall valid_name ds → strings.has_slash base = false →
  path.Dir (strings.Join ds +:+ "/" +:+ base) = strings.Join ds.
Proof.
  intros Hne Hds Hb. unfold path.Dir. rewrite path_Split_app by done. simpl.
  destruct (Join_valid_shape ds Hne Hds) as (ch & rest & Heq & Hch).
  unfold path.Clean.
  rewrite decide_False by (by rewrite Heq).
  assert (path.rooted (strings.Join ds +:+ "/") = false) as ->
    by (by rewrite Heq, string_app_cons).
  change (strings.Join ds +:+ "/") with (strings.Join ds +:+ "/" +:+ "").
  rewrite Split_app_slash, Split_Join by auto using valid_name_no_slash.
  unfold path.clean_elems.
  rewrite fold_left_app, (clean_fold_valid false ds) by done.
  simpl. change (path.clean_step false (rev ds ++ []) "") with (rev ds ++ []).
  rewrite app_nil_r, rev_involutive. by destruct ds.
Qed.

(** Below such a directory every entry keeps its path, after one slash. *)
Lemma translate_joined (inp : FileReference) (ds cs : list string) (base : string) :
  FullName inp = strings.Join ds +:+ "/" +:+ base →
  ds ≠ [] → Forall valid_name ds → strings.has_slash base = false →
  cs ≠ [] → Forall valid_name cs →
  translate inp (rel_path cs) = strings.Join ds +:+ "/" +:+ rel_path cs.
Proof.
  intros Hfull Hne Hds Hb Hc Hcs. unfold translate.
  rewrite Hfull, Dir_of_joined by done.
  assert (rel_path cs = strings.Join cs) as -> by (by destruct cs).
  rewrite Join_Join_valid by done. by apply Join_app.
Qed.

Lemma MkdirTemp_trace (dir pattern : string) (w : World) (s s1 : State) (r : result string) :
  os.MkdirTemp dir pattern w s = (r, s1) →
  trace s1 = trace s ++ [EvMkdirTemp dir pattern] ∧ ∀ msg, r ≠ Panic msg.
Proof.
  rewrite MkdirTemp_eq. simpl.
  destruct (MkdirTemp_result w dir pattern) as [e|d]; [by intros [= <- <-]|].
  destruct (files s !! d); by intros [= <- <-].
Qed.

(** Every start of the external program that a call makes is the run of
    [command] in the workspace, after a successful [setup]. *)
Lemma compiler_run exe args clampTime (inp : FileReference) (w : World) (s : State)
    (c : exec.Cmd) (cwd : option (list Node)) :
  EvRun c cwd ∈ since s (compiler exe args clampTime inp w s).2 →
  ∃ tmpdir s1 s2,
    os.MkdirTemp "" "ocibuild-pycompile." w s = (Ok tmpdir, s1) ∧
    setup inp tmpdir w s1 = (Ok tt, s2) ∧
    c = command exe args clampTime inp tmpdir (Environ w) ∧
    cwd = dir_entries s2 tmpdir.
Proof.
  rewrite compiler_eq.
  destruct (os.MkdirTemp _ _ w s) as [rm s1] eqn:Hmk.
  destruct (MkdirTemp_trace _ _ _ _ _ _ Hmk) as [Ht1 Hnp].
  destruct rm as [tmpdir|e|m].
  - destruct (body exe args clampTime inp tmpdir w s1) as [r s2] eqn:Hb.
    destruct (body_trace _ _ _ _ _ _ _ _ _ Hb) as (evs & Ht & Hrun).
    simpl.
    rewrite (since_app s _ ((EvMkdirTemp "" "ocibuild-pycompile." :: evs) ++
                            [EvRemoveAll tmpdir]))
      by (simpl; rewrite Ht, Ht1, <- !app_assoc; reflexivity).
    intros [Hin|Hin]%elem_of_app.
    + apply elem_of_cons in Hin as [?|Hin]; [done|].
      destruct (Hrun c cwd Hin) as (s1' & ? & ? & ?). by exists tmpdir, s1, s1'.
    + by apply list_elem_of_singleton in Hin.
  - simpl. rewrite (since_app s _ [EvMkdirTemp "" "ocibuild-pycompile."]) by done.
    by intros ?%list_elem_of_singleton.
  - by destruct (Hnp m).
Qed.

(** After a successful [setup] the external program is started. *)
Lemma compiler_runs exe args clampTime (inp : FileReference) (w : World)
    (s s1 s2 : State) (tmpdir : string) :
  os.MkdirTemp "" "ocibuild-pycompile." w s = (Ok tmpdir, s1) →
  setup inp tmpdir w s1 = (Ok tt, s2) →
  EvRun (command exe args clampTime inp tmpdir (Environ w)) (dir_entries s2 tmpdir)
    ∈ since s (compiler exe args clampTime inp w s).2.
Proof.
  intros Hmk Hs. rewrite compiler_eq, Hmk. simpl.
  destruct (MkdirTemp_trace _ _ _ _ _ _ Hmk) as [Ht1 _].
  destruct (setup_trace _ _ _ _ _ _ Hs) as [(evs & Ht2 & _) _].
  destruct (invoke exe args clampTime inp tmpdir w s2) as [ri s3] eqn:Hi.
  destruct (invoke_trace _ _ _ _ _ _ _ _ _ Hi) as [Ht3 _].
  assert (Hb : trace (body exe args clampTime inp tmpdir w s1).2 = trace s3).
  { unfold body, bind. rewrite Hs, Hi. destruct ri as [[]|e|m]; [|done..].
    destruct (collect inp tmpdir w s3) as [rc sc] eqn:Hc.
    destruct (collect_state _ _ _ _ _ _ Hc) as [-> _]. by destruct rc. }
  rewrite (since_app s _
    (EvMkdirTemp "" "ocibuild-pycompile." :: evs ++
     [EvRun (command exe args clampTime inp tmpdir (Environ w)) (dir_entries s2 tmpdir);
      EvRemoveAll tmpdir])).
  - apply elem_of_cons. right. apply elem_of_app. right. left.
  - simpl. rewrite Hb, Ht3, Ht2, Ht1, <- !app_assoc. reflexivity.
Qed.

(** The workspace as the external program finds it. *)
Lemma workspace_at_run (inp : FileReference) (w : World) (s s1 s2 : State) (tmpdir : string) :
  os.MkdirTemp "" "ocibuild-pycompile." w s = (Ok tmpdir, s1) →
  setup inp tmpdir w s1 = (Ok tt, s2) →
  ∃ rc data st,
    Open inp = inr rc ∧ ReadAll rc = inr data ∧ Close rc = None ∧
    files s2 !! tmpdir = Some (Directory "." st [input_file w inp data]) ∧
    since s s2 =
      [EvMkdirTemp "" "ocibuild-pycompile.";
       EvWriteFile (filepath.Join tmpdir (path.Base (FullName inp))) data 438;
       EvChtimes (filepath.Join tmpdir (path.Base (FullName inp))) (ModTime inp) (ModTime inp)].
Proof.
  intros Hmk Hs.
  destruct (MkdirTemp_ok _ _ _ _ _ _ Hmk) as (_ & (st & Hf1) & Ht1).
  assert (Hdir : files s1 !! tmpdir = Some (Directory "." st []))
    by (rewrite Hf1; apply lookup_insert_eq).
  destruct (setup_ok _ _ _ _ _ _ _ Hdir Hs) as (rc & data & HO & HR & HC & Hf2 & Ht2).
  exists rc, data, st. repeat split; try done.
  - rewrite Hf2. apply lookup_insert_eq.
  - apply since_app. rewrite Ht2, Ht1, <- app_assoc. reflexivity.
Qed.

(** The keys of the collected map are the translated paths of the selected
    entries. *)
Lemma collected_is_Some (inp : FileReference) (root : Node) (k : string) :
  is_Some (collected inp root !! k) ↔
  ∃ p d, (p, d) ∈ entries_below root ∧
         (node_IsDir d = true ∨ strings.HasSuffix (node_name d) ".pyc" = true) ∧
         k = translate inp p.
Proof.
  unfold collected. split.
  - intros [ref Hk]. apply fold_add_lookup in Hk as [Hk|([p d] & Hin & -> & _)].
    { by rewrite lookup_empty in Hk. }
    apply list_elem_of_filter in Hin as [Hsel Hin].
    exists p, d. split; [done|]. split; [|done].
    unfold selected in Hsel. simpl in Hsel. by apply orb_true_iff in Hsel.
  - intros (p & d & Hin & Hsel & ->). apply fold_add_is_Some. right.
    exists (p, d). split; [|done].
    apply list_elem_of_filter. split; [|done].
    unfold selected. simpl. by apply orb_true_iff.
Qed.

(** The map of a directory does not depend on the directory itself. *)
Lemma full_map_Directory (inp : FileReference) (n : string) (st : Stat) (es : list Node) :
  full_map inp (Directory n st es) =
  fold_left (add_reference inp)
    (filter (λ pd, picked pd = true)
       (flat_map (λ d1, entries (path.Join ["."; node_name d1]) d1) es)) ∅.
Proof. unfold full_map. simpl. by rewrite filter_cons. Qed.

(** A call that returns a map has gone through all phases: the map is the
    map of everything the external program left, read without failure. *)
Lemma compiler_compiled exe args clampTime (inp : FileReference) (w : World) (s : State)
    (r : Results) (m : VFS) :
  (compiler exe args clampTime inp w s).1 = Returns r →
  compiled r = Some m →
  ∃ rc data tmpdir n st es',
    Open inp = inr rc ∧ ReadAll rc = inr data ∧
    external w (command exe args clampTime inp tmpdir (Environ w))
      [input_file w inp data] (now w) = inr es' ∧
    first_fault (fault w) (collect_ops (Directory n st es')) = None ∧
    m = full_map inp (Directory n st es').
Proof.
  rewrite compiler_eq.
  destruct (os.MkdirTemp _ _ w s) as [[tmpdir|e|msg] s1] eqn:Hmk;
    [|by intros [= <-]|done].
  destruct (body exe args clampTime inp tmpdir w s1) as [rb sb] eqn:Hb. simpl.
  destruct (body_cases _ _ _ _ _ _ _ _ _ Hb)
    as [(E & -> & _)|(vfs & s2 & s3 & -> & -> & Hs & Hi & Hc)];
    [by intros [= <-]|].
  intros [= <-]. simpl. intros [= ->].
  destruct (workspace_at_run _ _ _ _ _ _ Hmk Hs)
    as (rc & data & st & HO & HR & _ & Hf & _).
  destruct (invoke_ok _ _ _ _ _ _ _ _ Hi) as (n & st' & es & es' & Hf2 & Hext & Hf3).
  rewrite Hf in Hf2. injection Hf2 as <- <- <-.
  assert (Hroot : files s3 !! tmpdir = Some (Directory "." st es'))
    by (rewrite Hf3; apply lookup_insert_eq).
  rewrite (collect_eq _ _ _ _ _ Hroot) in Hc.
  destruct (first_fault (fault w) (collect_ops (Directory "." st es'))) eqn:Hff;
    [done|].
  injection Hc as <-.
  by exists rc, data, tmpdir, ".", st, es'.
Qed.

(** ** Reaching the invocation phase *)

Lemma MkdirTemp_fresh (dir pattern : string) (w : World) (s : State) (tmpdir : string) :
  MkdirTemp_result w dir pattern = inr tmpdir →
  files s !! tmpdir = None →
  ∃ s1, os.MkdirTemp dir pattern w s = (Ok tmpdir, s1).
Proof. intros Hr Hf. rewrite MkdirTemp_eq. simpl. rewrite Hr, Hf. by eexists. Qed.

Lemma setup_succeeds (inp : FileReference) (tmpdir : string) (w : World) (s : State)
    (n : string) (st : Stat) :
  files s !! tmpdir = Some (Directory n st []) →
  input_error inp = None →
  valid_name (path.Base (FullName inp)) →
  fault w OpWriteFile = None →
  fault w OpChtimes = None →
  ∃ s', setup inp tmpdir w s = (Ok tt, s').
Proof.
  intros Hdir Hin (Hne & Hnd & Hndd & Hsl) HW HC.
  unfold input_error in Hin.
  unfold setup, bind at 1 2 3, try, try_, throw, ret.
  destruct (Open inp) as [e|rc]; [done|].
  destruct (ReadAll rc) as [e|data]; [done|].
  rewrite Hin.
  unfold bind. rewrite WriteFile_eq. simpl. rewrite Hdir, HW.
  rewrite decide_False.
  2:{ intros [?|[?|[Hs|?]]]; try done. by rewrite Hs in Hsl. }
  rewrite Hsl. simpl. rewrite Chtimes_eq. simpl. rewrite HC, lookup_insert_eq. simpl.
  rewrite decide_True by done. by eexists.
Qed.

(** When nothing stands in the way, the external program is started. *)
Lemma started exe args clampTime (inp : FileReference) (w : World) (s : State)
    (tmpdir : string) :
  reaches_invocation w s inp tmpdir →
  ∃ cwd,
    EvRun (command exe args clampTime inp tmpdir (Environ w)) cwd
      ∈ since s (compiler exe args clampTime inp w s).2.
Proof.
  intros (Hr & Hf & Hin & Hv & HW & HC).
  destruct (MkdirTemp_fresh _ _ _ _ _ Hr Hf) as [s1 Hmk].
  destruct (MkdirTemp_ok _ _ _ _ _ _ Hmk) as (_ & (st & Hf1) & _).
  assert (Hdir : files s1 !! tmpdir = Some (Directory "." st []))
    by (rewrite Hf1; apply lookup_insert_eq).
  destruct (setup_succeeds _ _ _ _ _ _ Hdir Hin Hv HW HC) as [s2 Hs].
  eexists. by apply (compiler_runs _ _ _ _ _ _ _ _ _ Hmk Hs).
Qed.

(** ** The times [os.Chtimes] sets *)

Lemma int64_small (z : Z) : - 2 ^ 63 ≤ z < 2 ^ 63 → time.int64 z = z.
Proof. intros H. unfold time.int64. rewrite Z.mod_small by lia. lia. Qed.

Lemma utime_settable (t old : time.Time) : settable t → os.utime t old = t.
Proof.
  intros (Hz & Hn & Hr). unfold os.utime. rewrite Hz.
  destruct t as [sc ns].
  unfold time.FromUnixNano, time.UnixNano, time.Unix. cbn [time.sec time.nsec] in *.
  assert (Hu : time.unixToInternal = - time.internalToUnix) by reflexivity.
  set (u := sc + time.internalToUnix) in *.
  rewrite (int64_small u) by lia.
  rewrite int64_small by lia.
  f_equal.
  - rewrite Z.div_add_l, Z.div_small by lia. subst u. lia.
  - rewrite Z.add_comm, Z.mod_add, Z.mod_small by lia. reflexivity.
Qed.

(** ** Maps without their time stamps *)







(** ** Calls with a nil context or a nil source *)

Lemma closure_Some exe args (c : context.Context) clampTime (inp : FileReference) :
  closure exe args (Some c) clampTime (Some inp) = compiler exe args clampTime inp.
Proof. by destruct c. Qed.

Lemma closure_body_nil_ctx exe args clampTime (inp : FileReference) (tmpdir : string)
    (w : World) (s : State) :
  closure_body exe args None clampTime (Some inp) tmpdir w s =
  match setup inp tmpdir w s with
  | (Ok _, s') => (Panic "invalid memory address or nil pointer dereference", s')
  | (Err e, s') => (Err e, s')
  | (Panic m, s') => (Panic m, s')
  end.
Proof.
  unfold closure_body, bind at 1 2, deref, ret.
  by destruct (setup inp tmpdir w s) as [[[]|e|m] s'].
Qed.

(** A call with a nil context makes the calls of [setup] and then removes
    the workspace: no program is started. *)
Lemma closure_nil_ctx_trace exe args clampTime (inp : FileReference) (w : World)
    (s : State) :
  Forall not_run (since s (closure exe args None clampTime (Some inp) w s).2).
Proof.
  unfold closure.
  destruct (os.MkdirTemp _ _ w s) as [rm s1] eqn:Hmk.
  destruct (MkdirTemp_trace _ _ _ _ _ _ Hmk) as [Ht1 _].
  destruct rm as [tmpdir|e|m]; simpl.
  - rewrite closure_body_nil_ctx.
    destruct (setup inp tmpdir w s1) as [r s2] eqn:Hs.
    destruct (setup_trace _ _ _ _ _ _ Hs) as [(evs & Ht2 & Hnr) _].
    assert (Hsince : ∀ s3, trace s3 = trace s2 →
              since s (os.RemoveAll tmpdir w s3).2 =
              EvMkdirTemp "" "ocibuild-pycompile." :: evs ++ [EvRemoveAll tmpdir]).
    { intros s3 H3. apply since_app. rewrite RemoveAll_eq. simpl.
      rewrite H3, Ht2, Ht1, <- !app_assoc. reflexivity. }
    assert (Hall : Forall not_run
              (EvMkdirTemp "" "ocibuild-pycompile." :: evs ++ [EvRemoveAll tmpdir])).
    { constructor; [done|]. apply Forall_app. split; [done|]. by constructor. }
    pose proof (Hsince s2 eq_refl) as Hs3.
    destruct r as [[]|e|m]; simpl;
      destruct (os.RemoveAll tmpdir w s2) as [rmErr s3]; simpl in *; by rewrite Hs3.
  - rewrite (since_app s _ [EvMkdirTemp "" "ocibuild-pycompile."]) by done.
    by constructor.
  - rewrite (since_app s _ [EvMkdirTemp "" "ocibuild-pycompile."]) by done.
    by constructor.
Qed.

(* ===================================================================== *)
(** * The claims *)

(** C10: [ExternalCompiler] reads [cmdline[0]] without a check: with an
    empty [cmdline] it panics with an index out of range and returns
    nothing, neither a compiler nor an error; with a non-empty [cmdline] it
    returns, so it panics exactly when [cmdline] is empty. *)
Theorem ExternalCompiler_empty_cmdline
    (LookPath Abs : string → error + string) (cmdline : list string) :
  (cmdline = [] →
     ExternalCompiler LookPath Abs cmdline =
     Panics "runtime error: index out of range [0] with length 0") ∧
  (cmdline ≠ [] → ∃ r, ExternalCompiler LookPath Abs cmdline = Returns r) ∧
  ((∃ msg, ExternalCompiler LookPath Abs cmdline = Panics msg) ↔ cmdline = []).
Proof.
  destruct cmdline as [|name args].
  - split; [done|]. split; [done|]. split; [done|]. intros _. by eexists.
  - split; [done|]. unfold ExternalCompiler.
    destruct (LookPath name) as [e|exe].
    { split; [by eexists|]. split; [by intros [? ?]|done]. }
    destruct (Abs exe) as [e|exe'].
    { split; [by eexists|]. split; [by intros [? ?]|done]. }
    split; [by eexists|]. split; [by intros [? ?]|done].
Qed.

(** C1: first error wins.  When the creation of the workspace fails with
    [E] the call returns [E].  When a later phase (setup, invocation or
    collection) fails with [E], the call returns [E] whether or not the
    removal of the workspace fails too.  When no phase fails, the error the
    call returns is the outcome of the removal. *)
Theorem first_error_wins exe args clampTime (inp : FileReference) (w : World) (s : State) :
  (∀ E s1, os.MkdirTemp "" "ocibuild-pycompile." w s = (Err E, s1) →
     (compiler exe args clampTime inp w s).1 =
     Returns {| compiled := None; err := Some E |}) ∧
  (∀ tmpdir s1 E,
     os.MkdirTemp "" "ocibuild-pycompile." w s = (Ok tmpdir, s1) →
     phase_fails exe args clampTime inp tmpdir w s1 E →
     (compiler exe args clampTime inp w s).1 =
     Returns {| compiled := None; err := Some E |}) ∧
  (∀ tmpdir s1 s2 vfs,
     os.MkdirTemp "" "ocibuild-pycompile." w s = (Ok tmpdir, s1) →
     body exe args clampTime inp tmpdir w s1 = (Ok vfs, s2) →
     (compiler exe args clampTime inp w s).1 =
     Returns {| compiled := Some vfs; err := fault w OpRemoveAll |}).
Proof.
  rewrite compiler_eq. repeat split.
  - by intros E s1 ->.
  - intros tmpdir s1 E -> Hf. simpl. by rewrite (body_fails _ _ _ _ _ _ _ _ Hf).
  - intros tmpdir s1 s2 vfs -> Hb. simpl. by rewrite Hb.
Qed.

(** C1, on the sample call: the external program fails and the removal
    fails, and the call returns the failure of the program. *)
Lemma first_error_wins_witness :
  (sample_compiler sample_clamp sample_input
     (sample_world ["PATH=/bin"] run_and_removal_fail) initial).1 =
  Returns {| compiled := None; err := Some (errorString "exit status 1") |}.
Proof.
  eapply (proj1 (proj2 (first_error_wins "/usr/bin/python3" ["-m"; "compileall"]
            sample_clamp sample_input
            (sample_world ["PATH=/bin"] run_and_removal_fail) initial))).
  - reflexivity.
  - apply phase_fails_body. vm_compute. reflexivity.
Defined.

(** C4, as amended: once the workspace exists, the last call the closure
    makes is the removal of the whole workspace, whatever happened in
    between (success, failed copy of the input, failed compiler, failed
    collection).  When the removal does not fail, the workspace is gone
    when the call returns; when it fails, the call returns an error. *)
Theorem workspace_removed exe args clampTime (inp : FileReference) (w : World)
    (s s1 : State) (tmpdir : string) :
  os.MkdirTemp "" "ocibuild-pycompile." w s = (Ok tmpdir, s1) →
  last (since s (compiler exe args clampTime inp w s).2) = Some (EvRemoveAll tmpdir) ∧
  (fault w OpRemoveAll = None →
   files (compiler exe args clampTime inp w s).2 !! tmpdir = None) ∧
  (∀ e, fault w OpRemoveAll = Some e →
   ∃ r e', (compiler exe args clampTime inp w s).1 = Returns r ∧ err r = Some e').
Proof.
  intros Hmk. rewrite compiler_eq, Hmk. simpl.
  destruct (body exe args clampTime inp tmpdir w s1) as [r s2] eqn:Hb.
  destruct (body_trace _ _ _ _ _ _ _ _ _ Hb) as (evs & Ht & _).
  destruct (MkdirTemp_ok _ _ _ _ _ _ Hmk) as (_ & _ & Ht1).
  split; [|split].
  - rewrite (since_app s _ ((EvMkdirTemp "" "ocibuild-pycompile." :: evs) ++
                           [EvRemoveAll tmpdir])); [apply last_snoc|].
    simpl. rewrite Ht, Ht1, <- !app_assoc. reflexivity.
  - intros ->. simpl. apply lookup_delete_eq.
  - intros e He.
    destruct (body_cases _ _ _ _ _ _ _ _ _ Hb)
      as [(E & -> & _)|(vfs & s2' & s3 & -> & _)]; simpl.
    + by eexists _, E.
    + eexists _, e. by rewrite He.
Qed.

(** C4, on the sample call with a failing compiler and a failing removal:
    the removal is still the last call made. *)
Lemma workspace_removed_witness :
  last (since initial
          (sample_compiler sample_clamp sample_input
             (sample_world ["PATH=/bin"] run_and_removal_fail) initial).2) =
  Some (EvRemoveAll "/tmp/ocibuild-pycompile.1").
Proof.
  apply (proj1 (workspace_removed "/usr/bin/python3" ["-m"; "compileall"]
            sample_clamp sample_input
            (sample_world ["PATH=/bin"] run_and_removal_fail) initial
            (os.MkdirTemp "" "ocibuild-pycompile."
               (sample_world ["PATH=/bin"] run_and_removal_fail) initial).2
            "/tmp/ocibuild-pycompile.1" eq_refl)).
Defined.

(** C4, as stated: in a world where nothing fails but the removal, the
    call succeeds, and the workspace it created is still there when it has
    returned. *)
Lemma workspace_outlives_call_counterexample :
  ∃ s1,
    os.MkdirTemp "" "ocibuild-pycompile." other_world initial =
      (Ok "/tmp/ocibuild-pycompile.77", s1) ∧
    is_Some (returned_map (sample_compiler sample_clamp sample_input other_world initial).1) ∧
    is_Some (files (sample_compiler sample_clamp sample_input other_world initial).2
               !! "/tmp/ocibuild-pycompile.77").
Proof.
  exists (os.MkdirTemp "" "ocibuild-pycompile." other_world initial).2.
  split; [vm_compute; reflexivity|].
  split; vm_compute; by eexists.
Qed.

(** The calls of the sample call, in order. *)
Example sample_calls :
  since initial
    (sample_compiler sample_clamp sample_input
       (sample_world ["PATH=/bin"] no_fault) initial).2 =
  [EvMkdirTemp "" "ocibuild-pycompile.";
   EvWriteFile (filepath.Join "/tmp/ocibuild-pycompile.1" "mod.py") [x61; x62] 438;
   EvChtimes (filepath.Join "/tmp/ocibuild-pycompile.1" "mod.py")
     (time.FromUnix 77) (time.FromUnix 77);
   EvRun sample_cmd sample_cwd;
   EvRemoveAll "/tmp/ocibuild-pycompile.1"].
Proof. vm_compute. reflexivity. Qed.

Ltac in_sample_calls :=
  apply list_elem_of_In; vm_compute; repeat (first [left; reflexivity | right]).

(** C8: a compiler built from [cmdline] starts the program found for
    [cmdline[0]] with the remaining arguments of [cmdline], then [-p] and
    the virtual directory of the source joined to [/], then the name of the
    source; its working directory is the workspace just created.  Every
    start of a program in a call is of this form, and a call that nothing
    keeps from the invocation phase does start the program. *)
Theorem command_line (LookPath Abs : string → error + string)
    (cmdline : list string) (compile : Compiler) :
  ExternalCompiler LookPath Abs cmdline = Returns (Some compile, None) →
  ∃ name args exe0 exe,
    cmdline = name :: args ∧ LookPath name = inr exe0 ∧ Abs exe0 = inr exe ∧
    ∀ ctx clampTime inp w s,
      (∀ c cwd,
         EvRun c cwd ∈ since s (compile ctx clampTime (Some inp) w s).2 →
         exec.Path c = exe ∧
         exec.Args c =
           exe :: args ++ ["-p"; path.Join ["/"; path.Dir (FullName inp)]; Name inp] ∧
         ∃ s1, os.MkdirTemp "" "ocibuild-pycompile." w s = (Ok (exec.Dir c), s1)) ∧
      (∀ tmpdir,
         ctx ≠ None →
         reaches_invocation w s inp tmpdir →
         ∃ c cwd,
           exec.Dir c = tmpdir ∧
           EvRun c cwd ∈ since s (compile ctx clampTime (Some inp) w s).2).
Proof.
  unfold ExternalCompiler. destruct cmdline as [|name args]; [done|].
  destruct (LookPath name) as [e|exe0] eqn:HL; [done|].
  destruct (Abs exe0) as [e|exe] eqn:HA; [done|].
  intros [= <-]. exists name, args, exe0, exe. do 3 (split; [done|]).
  intros [c0|] clampTime inp w s.
  - rewrite closure_Some. split.
    + intros c cwd Hin.
      destruct (compiler_run _ _ _ _ _ _ _ _ Hin) as (tmpdir & s1 & s2 & Hmk & _ & -> & _).
      split; [apply command_Path|]. split; [apply command_Args|].
      rewrite command_Dir. by exists s1.
    + intros tmpdir _ Hreach.
      destruct (started exe args clampTime inp w s tmpdir Hreach) as [cwd Hin].
      eexists _, cwd. split; [|exact Hin]. apply command_Dir.
  - split; [|done].
    intros c cwd Hin.
    pose proof (closure_nil_ctx_trace exe args clampTime inp w s) as Hnr.
    rewrite Forall_forall in Hnr. by destruct (Hnr _ Hin c cwd).
Qed.

(** C8, on the sample host: [python3 -m compileall] on [pkg/mod.py] runs
    [/usr/bin/python3 -m compileall -p /pkg mod.py] in the workspace. *)
Lemma command_line_witness :
  (exec.Path sample_cmd = "/usr/bin/python3" ∧
   exec.Args sample_cmd =
     "/usr/bin/python3" :: ["-m"; "compileall"] ++
       ["-p"; path.Join ["/"; path.Dir (FullName sample_input)]; Name sample_input] ∧
   ∃ s1, os.MkdirTemp "" "ocibuild-pycompile." (sample_world ["PATH=/bin"] no_fault) initial =
         (Ok (exec.Dir sample_cmd), s1)) ∧
  ∃ c cwd,
    exec.Dir c = "/tmp/ocibuild-pycompile.1" ∧
    EvRun c cwd ∈ since initial
      (sample_closure (Some context.Background) sample_clamp (Some sample_input)
         (sample_world ["PATH=/bin"] no_fault) initial).2.
Proof.
  destruct (command_line sample_LookPath sample_Abs ["python3"; "-m"; "compileall"]
              sample_closure eq_refl)
    as (name & args & exe0 & exe & Hc & HL & HA & Hrun).
  injection Hc as <- <-. injection HL as <-. injection HA as <-.
  destruct (Hrun (Some context.Background) sample_clamp sample_input
              (sample_world ["PATH=/bin"] no_fault) initial) as [Hevery Hstarted].
  split.
  - apply (Hevery sample_cmd sample_cwd). in_sample_calls.
  - apply (Hstarted "/tmp/ocibuild-pycompile.1"); [done|].
    repeat split; try reflexivity; vm_compute; discriminate.
Defined.

(** C2, as amended: without a clamp time the environment of the command is
    left unset, so the program inherits the environment of the caller; with
    a clamp time it is the inherited environment followed by
    [PYTHONHASHSEED=0] and [SOURCE_DATE_EPOCH] set to the clamp time in
    whole seconds since the Unix epoch. *)
Theorem clamp_environment exe args clampTime (inp : FileReference) (w : World)
    (s : State) (c : exec.Cmd) (cwd : option (list Node)) :
  EvRun c cwd ∈ since s (compiler exe args clampTime inp w s).2 →
  exec.Env c =
    if time.IsZero clampTime then None
    else Some (Environ w ++ ["PYTHONHASHSEED=0";
                             "SOURCE_DATE_EPOCH=" +:+ fmt.d (time.Unix clampTime)]).
Proof.
  intros (tmpdir & s1 & s2 & _ & _ & -> & _)%compiler_run.
  apply command_Env.
Qed.

(** C2, on the sample call, whose clamp time is not zero. *)
Lemma clamp_environment_witness :
  exec.Env sample_cmd =
    if time.IsZero sample_clamp then None
    else Some (Environ (sample_world ["PATH=/bin"] no_fault) ++
                 ["PYTHONHASHSEED=0";
                  "SOURCE_DATE_EPOCH=" +:+ fmt.d (time.Unix sample_clamp)]).
Proof.
  apply (clamp_environment "/usr/bin/python3" ["-m"; "compileall"] sample_clamp
           sample_input (sample_world ["PATH=/bin"] no_fault) initial
           sample_cmd sample_cwd).
  in_sample_calls.
Defined.

(** C2, as stated: the sample call sets [PYTHONHASHSEED], and no variable
    called [HASHSEED]. *)
Lemma hash_seed_name_counterexample :
  ∃ c cwd,
    EvRun c cwd ∈ since initial
      (sample_compiler sample_clamp sample_input
         (sample_world ["PATH=/bin"] no_fault) initial).2 ∧
    exec.Env c ≠ described_env (sample_world ["PATH=/bin"] no_fault) sample_clamp.
Proof.
  exists sample_cmd, sample_cwd. split; [in_sample_calls|].
  vm_compute. discriminate.
Qed.

(** C9, as amended: when the external program is started, the workspace
    holds one entry: a file named by the base name of the virtual full
    name of the source, with the content read from the source.  Its access
    time and its modification time are what [os.Chtimes] makes of the
    modification time of the source: that time itself when it can be set
    (not the zero time, and within the years 1678 to 2262).  A call that
    nothing keeps from the invocation phase does start the program. *)
Theorem input_in_workspace exe args clampTime (inp : FileReference) (w : World)
    (s : State) :
  (∀ c cwd,
     EvRun c cwd ∈ since s (compiler exe args clampTime inp w s).2 →
     ∃ rc data st,
       Open inp = inr rc ∧ ReadAll rc = inr data ∧
       cwd = Some [File (path.Base (FullName inp)) st data] ∧
       st_atime st = os.utime (ModTime inp) (now w) ∧
       st_mtime st = os.utime (ModTime inp) (now w) ∧
       (settable (ModTime inp) →
        st_atime st = ModTime inp ∧ st_mtime st = ModTime inp)) ∧
  (∀ tmpdir,
     reaches_invocation w s inp tmpdir →
     ∃ c cwd, EvRun c cwd ∈ since s (compiler exe args clampTime inp w s).2).
Proof.
  split.
  - intros c cwd (tmpdir & s1 & s2 & Hmk & Hs & _ & ->)%compiler_run.
    destruct (workspace_at_run _ _ _ _ _ _ Hmk Hs)
      as (rc & data & st & HO & HR & _ & Hf & _).
    exists rc, data. eexists. split; [done|]. split; [done|].
    unfold dir_entries. rewrite Hf. split; [reflexivity|]. simpl.
    split; [reflexivity|]. split; [reflexivity|].
    intros Hset. by rewrite utime_settable.
  - intros tmpdir Hreach.
    destruct (started exe args clampTime inp w s tmpdir Hreach) as [cwd Hin].
    by eexists _, cwd.
Qed.

(** C9, on the sample call: the workspace holds [mod.py] and nothing else
    when [pkg/mod.py] is compiled, with the times of the source; and the
    program is started. *)
Lemma input_in_workspace_witness :
  (∃ rc data st,
     Open sample_input = inr rc ∧ ReadAll rc = inr data ∧
     sample_cwd = Some [File (path.Base (FullName sample_input)) st data] ∧
     st_atime st = ModTime sample_input ∧ st_mtime st = ModTime sample_input) ∧
  ∃ c cwd,
    EvRun c cwd ∈ since initial
      (sample_compiler sample_clamp sample_input
         (sample_world ["PATH=/bin"] no_fault) initial).2.
Proof.
  destruct (input_in_workspace "/usr/bin/python3" ["-m"; "compileall"] sample_clamp
              sample_input (sample_world ["PATH=/bin"] no_fault) initial)
    as [Hevery Hstarted].
  split.
  - destruct (Hevery sample_cmd sample_cwd)
      as (rc & data & st & HO & HR & Hcwd & _ & _ & Hset); [in_sample_calls|].
    exists rc, data, st. do 3 (split; [done|]).
    apply Hset. repeat split; vm_compute; (reflexivity || discriminate).
  - apply (Hstarted "/tmp/ocibuild-pycompile.1").
    repeat split; try reflexivity; vm_compute; discriminate.
Defined.

(** C9, as stated: a source whose modification time is the zero time
    reaches the invocation phase with a copy that keeps the time at which
    it was written, since [os.Chtimes] leaves the times alone when it is
    given the zero time. *)
Lemma zero_modtime_counterexample :
  ∃ c st data,
    EvRun c (Some [File (path.Base (FullName undated_input)) st data])
      ∈ since initial
          (sample_compiler sample_clamp undated_input
             (sample_world ["PATH=/bin"] no_fault) initial).2 ∧
    st_atime st ≠ ModTime undated_input ∧ st_mtime st ≠ ModTime undated_input.
Proof.
  exists sample_cmd,
         {| st_mode := 420; st_size := 2;
            st_atime := time.FromUnix 5; st_mtime := time.FromUnix 5 |},
         [x61; x62].
  split; [in_sample_calls|]. split; vm_compute; discriminate.
Qed.

(** The map of the sample workspace: the [__pycache__] directory and the
    compiled file in it, under [pkg/]; not the input, not the stray file. *)
Example sample_collected :
  map_to_list (MContent <$> collected sample_input sample_root) ≡ₚ
  [("pkg/__pycache__", []);
   ("pkg/__pycache__/mod.cpython-39.pyc", [x01; x02; x03])].
Proof. vm_compute. apply perm_swap. Qed.

Lemma sample_root_well_named : well_named sample_root.
Proof. simpl. unfold valid_name. repeat split; done. Qed.

(** C5: on a workspace whose entries have plain names and which is read
    without failure, [collect] returns, without error, the map of exactly
    these entries below the root: every directory, and every file whose name
    ends with [.pyc]; the root and all other files are left out. *)
Theorem collector_filter (inp : FileReference) (tmpdir : string) (w : World)
    (s : State) (root : Node) :
  files s !! tmpdir = Some root →
  well_named root →
  (∀ op, op ∈ collect_ops root → fault w op = None) →
  collect inp tmpdir w s = (Ok (collected inp root), s) ∧
  ∀ k, is_Some (collected inp root !! k) ↔
       ∃ p d, (p, d) ∈ entries_below root ∧
              (node_IsDir d = true ∨ strings.HasSuffix (node_name d) ".pyc" = true) ∧
              k = translate inp p.
Proof.
  intros Hroot Hwn Hnf. split; [|apply collected_is_Some].
  rewrite (collect_eq _ _ _ _ _ Hroot), (first_fault_clear _ _ Hnf).
  by rewrite full_map_collected.
Qed.

(** C5, on the sample workspace, where the input and a stray text file lie
    next to the compiled file. *)
Lemma collector_filter_witness :
  collect sample_input "/tmp/ocibuild-pycompile.1"
    (sample_world ["PATH=/bin"] no_fault) sample_state =
  (Ok (collected sample_input sample_root), sample_state).
Proof.
  apply (proj1 (collector_filter sample_input "/tmp/ocibuild-pycompile.1"
                  (sample_world ["PATH=/bin"] no_fault) sample_state sample_root
                  eq_refl sample_root_well_named (λ _ _, eq_refl))).
Defined.

Lemma collector_filter_sample :
  collect sample_input "/tmp/ocibuild-pycompile.1"
    (sample_world ["PATH=/bin"] no_fault) sample_state =
  (Ok (collected sample_input sample_root), sample_state).
Proof. vm_compute. reflexivity. Qed.

(** C6: in the map [collect] returns for a workspace with plain names,
    every value sits at the key [path.Join(path.Dir(FullName), p)] of a
    selected entry at slash path [p] and carries that key as its full name,
    and every selected entry has its key in the map; only functions of
    package [path] build the key.  When the full name of the source is
    [d1/.../dk/base], every key is [d1/.../dk/] followed by the path of the
    entry in the workspace. *)
Theorem keys_translated (inp : FileReference) (tmpdir : string) (w : World)
    (s : State) (root : Node) (vfs : VFS) :
  files s !! tmpdir = Some root →
  well_named root →
  collect inp tmpdir w s = (Ok vfs, s) →
  (∀ k ref, vfs !! k = Some ref →
     ∃ p d, (p, d) ∈ entries_below root ∧ selected (p, d) = true ∧
            k = path.Join [path.Dir (FullName inp); p] ∧
            MFullName ref = k ∧ FileInfo ref = node_Info d) ∧
  (∀ p d, (p, d) ∈ entries_below root → selected (p, d) = true →
     is_Some (vfs !! path.Join [path.Dir (FullName inp); p])) ∧
  (∀ ds base,
     FullName inp = strings.Join ds +:+ "/" +:+ base →
     ds ≠ [] → Forall valid_name ds → strings.has_slash base = false →
     ∀ k, is_Some (vfs !! k) →
       ∃ p d, (p, d) ∈ entries_below root ∧ k = strings.Join ds +:+ "/" +:+ p).
Proof.
  intros Hroot Hwn Hc.
  rewrite (collect_eq _ _ _ _ _ Hroot) in Hc.
  destruct (first_fault (fault w) (collect_ops root)); [done|].
  injection Hc as <-. rewrite full_map_collected by done.
  assert (Hkeys : ∀ k ref, collected inp root !! k = Some ref →
     ∃ p d, (p, d) ∈ entries_below root ∧ selected (p, d) = true ∧
            k = translate inp p ∧ ref = reference inp (p, d)).
  { intros k ref Hk. unfold collected in Hk.
    apply fold_add_lookup in Hk as [Hk|([p d] & Hin & -> & ->)].
    { by rewrite lookup_empty in Hk. }
    apply list_elem_of_filter in Hin as [Hsel Hin]. by exists p, d. }
  split; [|split].
  - intros k ref (p & d & Hin & Hsel & -> & ->)%Hkeys. by exists p, d.
  - intros p d Hin Hsel. apply collected_is_Some. exists p, d.
    split; [done|]. split; [|done].
    unfold selected in Hsel. simpl in Hsel. by apply orb_true_iff in Hsel.
  - intros ds base Hfull Hne Hds Hb k [ref (p & d & Hin & _ & -> & _)%Hkeys].
    exists p, d. split; [done|].
    pose proof (entries_below_paths root [] (Forall_nil_2 _) Hwn) as Hpaths.
    rewrite Forall_forall in Hpaths.
    destruct (Hpaths (p, d) Hin) as (cs' & Hcs' & Hn & Hp). simpl in Hp.
    rewrite Hp. apply (translate_joined inp ds _ base); try done.
    + by destruct cs'.
    + apply Forall_app. split; [done|by constructor].
Qed.

(** C6, on the sample call: the source is [pkg/mod.py], so every key of the
    result is [pkg/] followed by the path of an entry. *)
Lemma keys_translated_witness :
  ∃ p d, (p, d) ∈ entries_below sample_root ∧
         "pkg/__pycache__/mod.cpython-39.pyc" = "pkg" +:+ "/" +:+ p.
Proof.
  apply (proj2 (proj2 (keys_translated sample_input "/tmp/ocibuild-pycompile.1"
                  (sample_world ["PATH=/bin"] no_fault) sample_state sample_root
                  (collected sample_input sample_root)
                  eq_refl sample_root_well_named collector_filter_sample))
           ["pkg"] "mod.py" eq_refl).
  - done.
  - repeat constructor; done.
  - reflexivity.
  - vm_compute. by eexists.
Defined.

(** C7: once the external program has run, the call stops at the first
    failure met while walking the workspace or reading a picked file, and
    then returns no map and that error; otherwise it returns the map of the
    whole workspace.  A failure of any call of the walk makes the call
    return no map and one of these errors.  Whenever a map is returned, it
    is the map of everything the external program left, read without
    failure: never a part of it. *)
Theorem collection_all_or_nothing exe args clampTime (inp : FileReference)
    (w : World) (s : State) :
  (∀ tmpdir s1 s2 s3 root,
     os.MkdirTemp "" "ocibuild-pycompile." w s = (Ok tmpdir, s1) →
     setup inp tmpdir w s1 = (Ok tt, s2) →
     invoke exe args clampTime inp tmpdir w s2 = (Ok tt, s3) →
     files s3 !! tmpdir = Some root →
     (compiler exe args clampTime inp w s).1 =
       match first_fault (fault w) (collect_ops root) with
       | Some e => Returns {| compiled := None; err := Some e |}
       | None => Returns {| compiled := Some (full_map inp root);
                            err := fault w OpRemoveAll |}
       end ∧
     (∀ op, op ∈ collect_ops root → is_Some (fault w op) →
        ∃ op' e, op' ∈ collect_ops root ∧ fault w op' = Some e ∧
          (compiler exe args clampTime inp w s).1 =
          Returns {| compiled := None; err := Some e |})) ∧
  (∀ r m,
     (compiler exe args clampTime inp w s).1 = Returns r →
     compiled r = Some m →
     ∃ n st es,
       first_fault (fault w) (collect_ops (Directory n st es)) = None ∧
       m = full_map inp (Directory n st es)).
Proof.
  split.
  - intros tmpdir s1 s2 s3 root Hmk Hs Hi Hroot.
    assert (Heq : (compiler exe args clampTime inp w s).1 =
       match first_fault (fault w) (collect_ops root) with
       | Some e => Returns {| compiled := None; err := Some e |}
       | None => Returns {| compiled := Some (full_map inp root);
                            err := fault w OpRemoveAll |}
       end).
    { rewrite compiler_eq, Hmk. unfold body, bind. rewrite Hs, Hi.
      rewrite (collect_eq _ _ _ _ _ Hroot).
      by destruct (first_fault (fault w) (collect_ops root)). }
    split; [done|].
    intros op Hin Hop.
    destruct (first_fault_elem _ _ _ Hin Hop) as [e He].
    destruct (first_fault_Some _ _ _ He) as (op' & Hin' & Hop').
    exists op', e. rewrite Heq, He. done.
  - intros r m Hr Hm.
    destruct (compiler_compiled _ _ _ _ _ _ _ _ Hr Hm)
      as (_ & _ & _ & n & st & es' & _ & _ & _ & Hff & ->).
    by exists n, st, es'.
Qed.

(** C7, on the sample call when the compiled file cannot be read back: no
    map, and the read error. *)
Lemma collection_all_or_nothing_witness :
  (sample_compiler sample_clamp sample_input
     (sample_world ["PATH=/bin"] read_fails) initial).1 =
  Returns {| compiled := None; err := Some (errorString "input/output error") |}.
Proof.
  pose (w := sample_world ["PATH=/bin"] read_fails).
  pose (tmpdir := "/tmp/ocibuild-pycompile.1").
  pose (s1 := (os.MkdirTemp "" "ocibuild-pycompile." w initial).2).
  pose (s2 := (setup sample_input tmpdir w s1).2).
  pose (s3 := (invoke "/usr/bin/python3" ["-m"; "compileall"] sample_clamp
                 sample_input tmpdir w s2).2).
  pose (root := default sample_root (files s3 !! tmpdir)).
  destruct (proj1 (collection_all_or_nothing "/usr/bin/python3" ["-m"; "compileall"]
                     sample_clamp sample_input w initial)
              tmpdir s1 s2 s3 root) as [Heq _].
  - reflexivity.
  - vm_compute. reflexivity.
  - vm_compute. reflexivity.
  - vm_compute. reflexivity.
  - exact Heq.
Defined.




(** C3, as stated, once more: the same source, the same non-zero clamp
    time and the same external program, a function of its command line,
    the content of its working directory and its environment; the
    inherited environment differs between the two calls, and so do the
    returned maps. *)
Lemma inherited_environment_counterexample :
  time.IsZero sample_clamp = false ∧
  external (env_world []) = external (env_world ["PYTHONOPTIMIZE=2"]) ∧
  deterministic (external (env_world [])) ∧
  ∃ r1 r2 m1 m2,
    (sample_compiler sample_clamp sample_input (env_world []) initial).1 = Returns r1 ∧
    compiled r1 = Some m1 ∧
    (sample_compiler sample_clamp sample_input
       (env_world ["PYTHONOPTIMIZE=2"]) initial).1 = Returns r2 ∧
    compiled r2 = Some m2 ∧
    MContent <$> m1 ≠ MContent <$> m2.
Proof.
  split; [reflexivity|]. split; [reflexivity|]. split.
  { intros c c' es t t' out out' _ _ _ Henv. simpl. rewrite Henv.
    by intros [= <-] [= <-]. }
  pose (m := λ env, default ∅ (returned_map
    (sample_compiler sample_clamp sample_input (env_world env) initial).1)).
  exists {| compiled := Some (m []); err := None |},
         {| compiled := Some (m ["PYTHONOPTIMIZE=2"]); err := None |},
         (m []), (m ["PYTHONOPTIMIZE=2"]).
  split; [vm_compute; reflexivity|]. split; [reflexivity|].
  split; [vm_compute; reflexivity|]. split; [reflexivity|].
  intros Heq.
  apply (f_equal (λ v : gmap string (list byte), v !! "pkg/mod.pyc")) in Heq.
  vm_compute in Heq. discriminate.
Qed.

(* ===================================================================== *)
(** * More on the closure *)

(** ** The calls of [setup] *)

(** [setup] stops before any call when the input cannot be read, after
    [WriteFile] when that fails, and makes both calls otherwise. *)
Lemma setup_calls (inp : FileReference) (tmpdir : string) (w : World) (s s' : State)
    (r : result unit) :
  setup inp tmpdir w s = (r, s') →
  (trace s' = trace s ∧ files s' = files s ∧ r ≠ Ok tt) ∨
  (∃ data,
     trace s' = trace s ++
       [EvWriteFile (filepath.Join tmpdir (path.Base (FullName inp))) data 438] ∧
     files s' = files s ∧ r ≠ Ok tt) ∨
  (∃ data,
     trace s' = trace s ++
       [EvWriteFile (filepath.Join tmpdir (path.Base (FullName inp))) data 438;
        EvChtimes (filepath.Join tmpdir (path.Base (FullName inp)))
          (ModTime inp) (ModTime inp)] ∧
     ∀ k, k ≠ tmpdir → files s' !! k = files s !! k).
Proof.
  unfold setup, bind at 1 2 3, try, try_, throw, ret.
  destruct (Open inp) as [e|rc]; [intros [= <- <-]; by left|].
  destruct (ReadAll rc) as [e|data]; [intros [= <- <-]; by left|].
  destruct (Close rc) as [e|]; [intros [= <- <-]; by left|].
  unfold bind. rewrite WriteFile_eq. simpl.
  destruct (fault w OpWriteFile);
    [intros [= <- <-]; right; left; by exists data|].
  destruct (files s !! tmpdir) as [[?|n st es]|];
    try (intros [= <- <-]; right; left; by exists data).
  destruct (decide _); [intros [= <- <-]; right; left; by exists data|].
  destruct (strings.has_slash _); [intros [= <- <-]; right; left; by exists data|].
  destruct (os.put_file _ _ _ _ _);
    [intros [= <- <-]; right; left; by exists data|].
  rewrite Chtimes_eq. simpl.
  assert (Hfr : ∀ (d1 d2 : Node) k, k ≠ tmpdir →
            <[tmpdir := d2]> (<[tmpdir := d1]> (files s)) !! k = files s !! k)
    by (intros; by rewrite !lookup_insert_ne).
  destruct (fault w OpChtimes).
  { intros [= <- <-]. right. right. exists data. simpl. rewrite <- app_assoc.
    split; [done|]. intros k Hk. by rewrite lookup_insert_ne. }
  rewrite lookup_insert_eq.
  destruct (os.set_times _ _ _ _).
  { intros [= <- <-]. right. right. exists data. simpl. rewrite <- app_assoc.
    split; [done|]. intros k Hk. by rewrite lookup_insert_ne. }
  intros [= <- <-]. right. right. exists data. simpl. rewrite <- app_assoc.
  split; [done|]. apply Hfr.
Qed.

(** [invoke] changes no directory but the workspace. *)
Lemma invoke_files exe args clampTime (inp : FileReference) (tmpdir : string)
    (w : World) (s s' : State) (r : result unit) :
  invoke exe args clampTime inp tmpdir w s = (r, s') →
  ∀ k, k ≠ tmpdir → files s' !! k = files s !! k.
Proof.
  unfold invoke, bind at 1, ret. rewrite Run_eq. simpl.
  rewrite command_Dir.
  destruct (fault w OpRun); [by intros [= <- <-]|].
  destruct (files s !! tmpdir) as [[?|n st es]|]; try by intros [= <- <-].
  destruct (external w _ _ _); intros [= <- <-]; [done|].
  intros k Hk. simpl. by rewrite lookup_insert_ne.
Qed.

(** The calls and the effect of everything between the creation and the
    removal of the workspace. *)
Lemma body_calls exe args clampTime (inp : FileReference) (tmpdir : string)
    (w : World) (s s' : State) (r : result VFS) :
  body exe args clampTime inp tmpdir w s = (r, s') →
  (∀ k, k ≠ tmpdir → files s' !! k = files s !! k) ∧
  ((since s s' = [] ∧ ∀ vfs, r ≠ Ok vfs) ∨
   (∃ data,
      since s s' =
        [EvWriteFile (filepath.Join tmpdir (path.Base (FullName inp))) data 438] ∧
      ∀ vfs, r ≠ Ok vfs) ∨
   (∃ data,
      since s s' =
        [EvWriteFile (filepath.Join tmpdir (path.Base (FullName inp))) data 438;
         EvChtimes (filepath.Join tmpdir (path.Base (FullName inp)))
           (ModTime inp) (ModTime inp)] ∧
      ∀ vfs, r ≠ Ok vfs) ∨
   (∃ data cwd,
      since s s' =
        [EvWriteFile (filepath.Join tmpdir (path.Base (FullName inp))) data 438;
         EvChtimes (filepath.Join tmpdir (path.Base (FullName inp)))
           (ModTime inp) (ModTime inp);
         EvRun (command exe args clampTime inp tmpdir (Environ w)) cwd])).
Proof.
  unfold body, bind.
  destruct (setup inp tmpdir w s) as [rs s1] eqn:Hs.
  destruct (setup_calls _ _ _ _ _ _ Hs)
    as [(Ht & Hf & Hr)|[(data & Ht & Hf & Hr)|(data & Ht & Hf)]].
  - destruct rs as [[]|e|m]; [done|..]; intros [= <- <-];
      (split; [intros; by rewrite Hf|left; split; [by apply since_app; rewrite Ht, app_nil_r|done]]).
  - destruct rs as [[]|e|m]; [done|..]; intros [= <- <-];
      (split; [intros; by rewrite Hf|right; left; exists data; split; [by apply since_app|done]]).
  - destruct rs as [[]|e|m];
      [|intros [= <- <-]; (split; [done|right; right; left; exists data;
                                   split; [by apply since_app|done]])..].
    destruct (invoke exe args clampTime inp tmpdir w s1) as [ri s2] eqn:Hi.
    destruct (invoke_trace _ _ _ _ _ _ _ _ _ Hi) as [Hti _].
    pose proof (invoke_files _ _ _ _ _ _ _ _ _ Hi) as Hfi.
    assert (Hsince : since s s2 =
        [EvWriteFile (filepath.Join tmpdir (path.Base (FullName inp))) data 438;
         EvChtimes (filepath.Join tmpdir (path.Base (FullName inp)))
           (ModTime inp) (ModTime inp);
         EvRun (command exe args clampTime inp tmpdir (Environ w))
           (dir_entries s1 tmpdir)]).
    { apply since_app. rewrite Hti, Ht, <- app_assoc. reflexivity. }
    assert (Hfiles : ∀ k, k ≠ tmpdir → files s2 !! k = files s !! k).
    { intros k Hk. by rewrite Hfi, Hf. }
    destruct ri as [[]|e|m];
      [|intros [= <- <-]; (split; [done|right; right; right; by eexists _, _])..].
    destruct (collect inp tmpdir w s2) as [rc sc] eqn:Hc.
    destruct (collect_state _ _ _ _ _ _ Hc) as [-> _].
    destruct rc; intros [= <- <-];
      (split; [done|right; right; right; by eexists _, _]).
Qed.

(** ** What a call does besides returning *)

Lemma MkdirTemp_fails (dir pattern : string) (w : World) (s s1 : State) (E : error) :
  os.MkdirTemp dir pattern w s = (Err E, s1) → files s1 = files s.
Proof.
  rewrite MkdirTemp_eq. simpl.
  destruct (MkdirTemp_result w dir pattern) as [e|d]; [by intros [= <- <-]|].
  destruct (files s !! d); by intros [= <- <-].
Qed.

Lemma closure_body_trace exe args ctx clampTime (in_ : option FileReference)
    (tmpdir : string) (w : World) (s s' : State) (r : result VFS) :
  closure_body exe args ctx clampTime in_ tmpdir w s = (r, s') →
  ∃ evs, trace s' = trace s ++ evs.
Proof.
  destruct in_ as [inp|]; [|intros [= <- <-]; exists []; by rewrite app_nil_r].
  destruct ctx as [[]|].
  - intros Hb. destruct (body_trace exe args clampTime inp tmpdir w s s' r Hb)
      as (evs & Ht & _). by exists evs.
  - rewrite closure_body_nil_ctx.
    destruct (setup inp tmpdir w s) as [rs s2] eqn:Hs.
    destruct (setup_trace _ _ _ _ _ _ Hs) as [(evs & Ht & _) _].
    destruct rs as [[]|e|m]; intros [= <- <-]; by exists evs.
Qed.

(** X1: the closure panics on a nil source and on a nil context, and on
    nothing else.  Called with a context and a source it returns its two
    results: in particular the walk function never touches the nil entry
    that [fs.WalkDir] hands over with an error.  A nil source makes it
    panic as soon as the workspace exists, at the first use of the source;
    a nil context makes it panic when the command is built, after the
    input has been written.  Whenever it panics, the workspace had been
    created and the deferred removal is the last call made. *)
Theorem panics_only_on_nil exe args (ctx : option context.Context) clampTime
    (in_ : option FileReference) (w : World) (s : State) :
  (ctx ≠ None → in_ ≠ None →
   ∃ r, (closure exe args ctx clampTime in_ w s).1 = Returns r) ∧
  (∀ msg, (closure exe args ctx clampTime in_ w s).1 = Panics msg →
     (in_ = None ∨ ctx = None) ∧
     ∃ tmpdir s1,
       os.MkdirTemp "" "ocibuild-pycompile." w s = (Ok tmpdir, s1) ∧
       last (since s (closure exe args ctx clampTime in_ w s).2) =
         Some (EvRemoveAll tmpdir)) ∧
  (in_ = None →
   ∀ tmpdir s1,
     os.MkdirTemp "" "ocibuild-pycompile." w s = (Ok tmpdir, s1) →
     (∃ msg, (closure exe args ctx clampTime in_ w s).1 = Panics msg) ∧
     since s (closure exe args ctx clampTime in_ w s).2 =
       [EvMkdirTemp "" "ocibuild-pycompile."; EvRemoveAll tmpdir]) ∧
  (ctx = None →
   ∀ inp tmpdir,
     in_ = Some inp →
     reaches_invocation w s inp tmpdir →
     ∃ msg, (closure exe args ctx clampTime in_ w s).1 = Panics msg).
Proof.
  assert (Hret : ∀ c inp,
            ∃ r, (closure exe args (Some c) clampTime (Some inp) w s).1 = Returns r).
  { intros c inp. rewrite closure_Some, compiler_eq.
    destruct (os.MkdirTemp _ _ w s) as [rm s1] eqn:Hmk.
    destruct (MkdirTemp_trace _ _ _ _ _ _ Hmk) as [_ Hnp].
    destruct rm as [tmpdir|e|m]; [|by eexists|by destruct (Hnp m)].
    destruct (body exe args clampTime inp tmpdir w s1) as [r s2] eqn:Hb. simpl.
    destruct (body_cases _ _ _ _ _ _ _ _ _ Hb) as [(E & -> & _)|(vfs & ? & ? & -> & _)];
      by eexists. }
  split; [|split; [|split]].
  - intros Hc Hi. destruct ctx as [c|]; [|done]. destruct in_ as [inp|]; [|done].
    apply Hret.
  - intros msg Hp. split.
    { destruct in_ as [inp|]; [|by left]. destruct ctx as [c|]; [|by right].
      destruct (Hret c inp) as [r Hr]. congruence. }
    revert Hp. unfold closure.
    destruct (os.MkdirTemp _ _ w s) as [rm s1] eqn:Hmk.
    destruct (MkdirTemp_trace _ _ _ _ _ _ Hmk) as [Ht1 Hnp].
    destruct rm as [tmpdir|e|m]; [|done|by destruct (Hnp m)].
    intros _. exists tmpdir, s1. split; [done|].
    destruct (closure_body exe args ctx clampTime in_ tmpdir w s1) as [r s2] eqn:Hb.
    destruct (closure_body_trace _ _ _ _ _ _ _ _ _ _ Hb) as [evs Ht].
    rewrite RemoveAll_eq. simpl.
    assert (Hsince : since s {| files := match fault w OpRemoveAll with
                                         | Some _ => alter (leftover w) tmpdir (files s2)
                                         | None => delete tmpdir (files s2)
                                         end;
                                trace := trace s2 ++ [EvRemoveAll tmpdir] |} =
                     (EvMkdirTemp "" "ocibuild-pycompile." :: evs) ++ [EvRemoveAll tmpdir]).
    { apply since_app. simpl. rewrite Ht, Ht1, <- !app_assoc. reflexivity. }
    destruct r; simpl; rewrite Hsince; apply last_snoc.
  - intros -> tmpdir s1 Hmk. unfold closure. rewrite Hmk.
    destruct (MkdirTemp_trace _ _ _ _ _ _ Hmk) as [Ht1 _].
    change (closure_body exe args ctx clampTime None tmpdir w s1)
      with (@Panic VFS "invalid memory address or nil pointer dereference", s1).
    cbv beta iota. rewrite RemoveAll_eq. simpl. split; [by eexists|].
    apply since_app. simpl. rewrite Ht1, <- app_assoc. reflexivity.
  - intros -> inp tmpdir -> (Hr & Hf & Hin & Hv & HW & HC).
    destruct (MkdirTemp_fresh _ _ _ _ _ Hr Hf) as [s1 Hmk].
    destruct (MkdirTemp_ok _ _ _ _ _ _ Hmk) as (_ & (st & Hf1) & _).
    assert (Hdir : files s1 !! tmpdir = Some (Directory "." st []))
      by (rewrite Hf1; apply lookup_insert_eq).
    destruct (setup_succeeds _ _ _ _ _ _ Hdir Hin Hv HW HC) as [s2 Hs].
    unfold closure. rewrite Hmk, closure_body_nil_ctx, Hs.
    destruct (os.RemoveAll tmpdir w s2). by eexists.
Qed.

(** X1, on the sample host: a call without a source creates the workspace,
    panics, and removes the workspace on its way out. *)
Lemma panics_only_on_nil_witness :
  (∃ msg,
     (sample_closure (Some context.Background) sample_clamp None
        (sample_world ["PATH=/bin"] no_fault) initial).1 = Panics msg) ∧
  since initial
    (sample_closure (Some context.Background) sample_clamp None
       (sample_world ["PATH=/bin"] no_fault) initial).2 =
  [EvMkdirTemp "" "ocibuild-pycompile."; EvRemoveAll "/tmp/ocibuild-pycompile.1"].
Proof.
  apply (proj1 (proj2 (proj2 (panics_only_on_nil "/usr/bin/python3" ["-m"; "compileall"]
            (Some context.Background) sample_clamp None
            (sample_world ["PATH=/bin"] no_fault) initial))) eq_refl
           "/tmp/ocibuild-pycompile.1"
           (os.MkdirTemp "" "ocibuild-pycompile."
              (sample_world ["PATH=/bin"] no_fault) initial).2).
  reflexivity.
Defined.

(** X2: the calls by which one invocation changes the file system or
    starts a process (the reads of the walk are not among them) are, in
    order, one of five sequences:
    [MkdirTemp] alone; [MkdirTemp], [RemoveAll]; [MkdirTemp], [WriteFile],
    [RemoveAll]; [MkdirTemp], [WriteFile], [Chtimes], [RemoveAll]; or all
    five with the run of the external program before the removal.  So the
    program is started at most once and only after the input was written
    and its times were set, the workspace written to and removed is the one
    that was created, and a map is returned only after a run. *)
Theorem call_sequences exe args clampTime (inp : FileReference) (w : World) (s : State) :
  (since s (compiler exe args clampTime inp w s).2 =
     [EvMkdirTemp "" "ocibuild-pycompile."] ∧
   returned_map (compiler exe args clampTime inp w s).1 = None) ∨
  ∃ tmpdir s1,
    os.MkdirTemp "" "ocibuild-pycompile." w s = (Ok tmpdir, s1) ∧
    let name := filepath.Join tmpdir (path.Base (FullName inp)) in
    let mt := ModTime inp in
    ((since s (compiler exe args clampTime inp w s).2 =
        [EvMkdirTemp "" "ocibuild-pycompile."; EvRemoveAll tmpdir] ∧
      returned_map (compiler exe args clampTime inp w s).1 = None) ∨
     (∃ data,
        since s (compiler exe args clampTime inp w s).2 =
          [EvMkdirTemp "" "ocibuild-pycompile."; EvWriteFile name data 438;
           EvRemoveAll tmpdir] ∧
        returned_map (compiler exe args clampTime inp w s).1 = None) ∨
     (∃ data,
        since s (compiler exe args clampTime inp w s).2 =
          [EvMkdirTemp "" "ocibuild-pycompile."; EvWriteFile name data 438;
           EvChtimes name mt mt; EvRemoveAll tmpdir] ∧
        returned_map (compiler exe args clampTime inp w s).1 = None) ∨
     (∃ data cwd,
        since s (compiler exe args clampTime inp w s).2 =
          [EvMkdirTemp "" "ocibuild-pycompile."; EvWriteFile name data 438;
           EvChtimes name mt mt;
           EvRun (command exe args clampTime inp tmpdir (Environ w)) cwd;
           EvRemoveAll tmpdir])).
Proof.
  rewrite compiler_eq.
  destruct (os.MkdirTemp _ _ w s) as [rm s1] eqn:Hmk.
  destruct (MkdirTemp_trace _ _ _ _ _ _ Hmk) as [Ht1 Hnp].
  destruct rm as [tmpdir|e|m]; [|left; split; [by apply since_app|done]|by destruct (Hnp m)].
  right. exists tmpdir, s1. split; [done|].
  destruct (body exe args clampTime inp tmpdir w s1) as [r s2] eqn:Hb.
  destruct (body_calls _ _ _ _ _ _ _ _ _ Hb) as [_ Hcalls].
  assert (Hsince : ∀ evs, since s1 s2 = evs →
    since s {| files := match fault w OpRemoveAll with
                        | Some _ => alter (leftover w) tmpdir (files s2)
                        | None => delete tmpdir (files s2)
                        end;
               trace := trace s2 ++ [EvRemoveAll tmpdir] |} =
    EvMkdirTemp "" "ocibuild-pycompile." :: evs ++ [EvRemoveAll tmpdir]).
  { intros evs <-. apply since_app. simpl.
    destruct (body_trace _ _ _ _ _ _ _ _ _ Hb) as (evs' & Ht2 & _).
    rewrite (since_app s1 s2 evs' Ht2), Ht2, Ht1, <- !app_assoc. reflexivity. }
  assert (Hnone : (∀ vfs, r ≠ Ok vfs) →
    returned_map match r with
                 | Ok vfs => Returns {| compiled := Some vfs; err := fault w OpRemoveAll |}
                 | Err e => Returns {| compiled := None; err := Some e |}
                 | Panic msg => Panics msg
                 end = None).
  { intros Hr. destruct r as [vfs| |]; [by destruct (Hr vfs)|done..]. }
  simpl.
  destruct Hcalls as [(Hc & Hr)|[(data & Hc & Hr)|[(data & Hc & Hr)|(data & cwd & Hc)]]].
  - left. by rewrite (Hsince _ Hc), Hnone.
  - right. left. exists data. by rewrite (Hsince _ Hc), Hnone.
  - right. right. left. exists data. by rewrite (Hsince _ Hc), Hnone.
  - right. right. right. exists data, cwd. by rewrite (Hsince _ Hc).
Qed.

(** X4: when the workspace cannot be created, the call returns that error
    after this one call: it removes nothing and changes no directory. *)
Theorem creation_failure exe args clampTime (inp : FileReference) (w : World)
    (s s1 : State) (E : error) :
  os.MkdirTemp "" "ocibuild-pycompile." w s = (Err E, s1) →
  (compiler exe args clampTime inp w s).1 = Returns {| compiled := None; err := Some E |} ∧
  since s (compiler exe args clampTime inp w s).2 = [EvMkdirTemp "" "ocibuild-pycompile."] ∧
  files (compiler exe args clampTime inp w s).2 = files s.
Proof.
  intros Hmk. rewrite compiler_eq, Hmk. simpl.
  destruct (MkdirTemp_trace _ _ _ _ _ _ Hmk) as [Ht _].
  split; [done|]. split; [by apply since_app|by apply (MkdirTemp_fails _ _ _ _ _ _ Hmk)].
Qed.

(** X4, in a world whose temporary directory is full. *)
Lemma creation_failure_witness :
  (sample_compiler sample_clamp sample_input full_disk_world sample_state).1 =
    Returns {| compiled := None; err := Some (errorString "no space left on device") |} ∧
  since sample_state
    (sample_compiler sample_clamp sample_input full_disk_world sample_state).2 =
    [EvMkdirTemp "" "ocibuild-pycompile."] ∧
  files (sample_compiler sample_clamp sample_input full_disk_world sample_state).2 =
    files sample_state.
Proof.
  apply (creation_failure "/usr/bin/python3" ["-m"; "compileall"] sample_clamp
           sample_input full_disk_world sample_state
           (os.MkdirTemp "" "ocibuild-pycompile." full_disk_world sample_state).2
           (errorString "no space left on device") eq_refl).
Defined.

Lemma setup_input_error (inp : FileReference) (tmpdir : string) (w : World) (s : State)
    (E : error) :
  input_error inp = Some E → setup inp tmpdir w s = (Err E, s).
Proof.
  unfold input_error, setup, bind at 1 2 3, try, try_, throw, ret.
  destruct (Open inp) as [e|rc]; [by intros [= ->]|].
  destruct (ReadAll rc) as [e|data]; [by intros [= ->]|].
  by intros ->.
Qed.

(** X5: when the input cannot be read, the call returns the error of
    [Open], else of [io.ReadAll] (the reader is then closed and what
    [Close] answers is dropped), else of [Close]; nothing is written, the
    external program is not started, and the empty workspace is removed. *)
Theorem input_unreadable exe args clampTime (inp : FileReference) (w : World)
    (s s1 : State) (tmpdir : string) (E : error) :
  os.MkdirTemp "" "ocibuild-pycompile." w s = (Ok tmpdir, s1) →
  input_error inp = Some E →
  (compiler exe args clampTime inp w s).1 = Returns {| compiled := None; err := Some E |} ∧
  since s (compiler exe args clampTime inp w s).2 =
    [EvMkdirTemp "" "ocibuild-pycompile."; EvRemoveAll tmpdir].
Proof.
  intros Hmk Hin. rewrite compiler_eq, Hmk.
  unfold body, bind. rewrite (setup_input_error _ _ _ _ _ Hin). simpl.
  destruct (MkdirTemp_trace _ _ _ _ _ _ Hmk) as [Ht _].
  split; [done|]. apply since_app. simpl. by rewrite Ht, <- app_assoc.
Qed.

(** X5, on a source that breaks off while read and fails to close: the
    call returns the error of the read. *)
Lemma input_unreadable_witness :
  (sample_compiler sample_clamp broken_input
     (sample_world ["PATH=/bin"] no_fault) initial).1 =
    Returns {| compiled := None; err := Some (errorString "unexpected EOF") |} ∧
  since initial
    (sample_compiler sample_clamp broken_input
       (sample_world ["PATH=/bin"] no_fault) initial).2 =
    [EvMkdirTemp "" "ocibuild-pycompile."; EvRemoveAll "/tmp/ocibuild-pycompile.1"].
Proof.
  apply (input_unreadable "/usr/bin/python3" ["-m"; "compileall"] sample_clamp
           broken_input (sample_world ["PATH=/bin"] no_fault) initial
           (os.MkdirTemp "" "ocibuild-pycompile."
              (sample_world ["PATH=/bin"] no_fault) initial).2
           "/tmp/ocibuild-pycompile.1" (errorString "unexpected EOF")
           eq_refl eq_refl).
Defined.


(** ** The prepend directory and the keys *)

Lemma Join_root_rooted (d : string) : path.rooted (path.Join ["/"; d]) = true.
Proof.
  unfold path.Join. rewrite (filter_cons_True _ "/") by done.
  destruct (decide (d = "")) as [->|Hd].
  - by rewrite filter_cons_False, filter_nil by (by intros ?).
  - rewrite (filter_cons_True _ d), filter_nil by done.
    change (strings.Join ["/"; d]) with (String "/" ("/" +:+ d)).
    unfold path.Clean. rewrite decide_False by done. done.
Qed.

Lemma Join_root_joined (ds : list string) :
  ds ≠ [] → Forall valid_name ds →
  path.Join ["/"; strings.Join ds] = "/" +:+ strings.Join ds.
Proof.
  intros Hne Hds.
  destruct (Join_valid_shape ds Hne Hds) as (ch & rest & Heq & _).
  rewrite Join_two by (by rewrite ?Heq).
  unfold path.Clean. rewrite decide_False by done.
  change (path.rooted ("/" +:+ "/" +:+ strings.Join ds)) with true.
  rewrite Split_app_slash, Split_Join by auto using valid_name_no_slash.
  unfold path.clean_elems. simpl fold_left.
  change (path.clean_step true (path.clean_step true [] "") "") with (@nil string).
  rewrite clean_fold_valid by done.
  by rewrite app_nil_r, rev_involutive.
Qed.

Lemma Dir_no_slash (f : string) : strings.has_slash f = false → path.Dir f = ".".
Proof. intros Hf. unfold path.Dir. by rewrite path_Split_no_slash. Qed.

(** X6: the directory handed to the external program after [-p] is always
    a rooted path; it is [/d1/.../dk] when the full name of the source is
    [d1/.../dk/base], and [/] when the full name has no slash. *)
Theorem prepend_dir_rooted exe args clampTime (inp : FileReference) (w : World)
    (s : State) (c : exec.Cmd) (cwd : option (list Node)) :
  EvRun c cwd ∈ since s (compiler exe args clampTime inp w s).2 →
  ∃ v,
    exec.Args c = exe :: args ++ ["-p"; v; Name inp] ∧
    path.rooted v = true ∧
    (∀ ds base,
       FullName inp = strings.Join ds +:+ "/" +:+ base →
       ds ≠ [] → Forall valid_name ds → strings.has_slash base = false →
       v = "/" +:+ strings.Join ds) ∧
    (strings.has_slash (FullName inp) = false → v = "/").
Proof.
  intros (tmpdir & s1 & s2 & _ & _ & -> & _)%compiler_run.
  exists (path.Join ["/"; path.Dir (FullName inp)]).
  split; [apply command_Args|]. split; [apply Join_root_rooted|]. split.
  - intros ds base -> Hne Hds Hb. rewrite Dir_of_joined by done.
    by apply Join_root_joined.
  - intros Hf. by rewrite Dir_no_slash.
Qed.

(** X6, on the sample call: [pkg/mod.py] gives [-p /pkg]. *)
Lemma prepend_dir_rooted_witness :
  ∃ v,
    exec.Args sample_cmd =
      "/usr/bin/python3" :: ["-m"; "compileall"] ++ ["-p"; v; Name sample_input] ∧
    path.rooted v = true ∧
    (∀ ds base,
       FullName sample_input = strings.Join ds +:+ "/" +:+ base →
       ds ≠ [] → Forall valid_name ds → strings.has_slash base = false →
       v = "/" +:+ strings.Join ds) ∧
    (strings.has_slash (FullName sample_input) = false → v = "/").
Proof.
  apply (prepend_dir_rooted "/usr/bin/python3" ["-m"; "compileall"] sample_clamp
           sample_input (sample_world ["PATH=/bin"] no_fault) initial
           sample_cmd sample_cwd).
  in_sample_calls.
Defined.

(** X7: for a source whose full name has no slash, the keys of the map
    [collect] returns are the slash paths of the selected entries of the
    workspace themselves. *)
Theorem keys_of_top_level_source (inp : FileReference) (tmpdir : string) (w : World)
    (s : State) (root : Node) (vfs : VFS) :
  files s !! tmpdir = Some root →
  well_named root →
  collect inp tmpdir w s = (Ok vfs, s) →
  strings.has_slash (FullName inp) = false →
  ∀ k, is_Some (vfs !! k) ↔
       ∃ d, (k, d) ∈ entries_below root ∧ selected (k, d) = true.
Proof.
  intros Hroot Hwn Hc Hf k.
  rewrite (collect_eq _ _ _ _ _ Hroot) in Hc.
  destruct (first_fault (fault w) (collect_ops root)); [done|].
  injection Hc as <-. rewrite full_map_collected by done.
  assert (Hid : ∀ p d, (p, d) ∈ entries_below root → translate inp p = p).
  { intros p d Hin.
    pose proof (entries_below_paths root [] (Forall_nil_2 _) Hwn) as Hpaths.
    rewrite Forall_forall in Hpaths.
    destruct (Hpaths (p, d) Hin) as (cs' & Hcs' & Hn & Hp). simpl in Hp.
    unfold translate. rewrite Dir_no_slash by done.
    assert (p = strings.Join (cs' ++ [node_name d])) as -> by (by destruct cs').
    apply Join_dot_valid; [by destruct cs'|].
    apply Forall_app. split; [done|by constructor]. }
  rewrite collected_is_Some. split.
  - intros (p & d & Hin & Hsel & ->). exists d. rewrite (Hid p d Hin).
    split; [done|]. unfold selected. simpl. by apply orb_true_iff.
  - intros (d & Hin & Hsel). exists k, d. split; [done|].
    split; [|by rewrite (Hid k d Hin)].
    unfold selected in Hsel. simpl in Hsel. by apply orb_true_iff in Hsel.
Qed.

Lemma keys_of_top_level_source_sample :
  collect top_input "/tmp/ocibuild-pycompile.1"
    (sample_world ["PATH=/bin"] no_fault) sample_state =
  (Ok (collected top_input sample_root), sample_state).
Proof. vm_compute. reflexivity. Qed.

(** X7, on the sample workspace and the source [setup.py]: the compiled
    file keeps its path [__pycache__/mod.cpython-39.pyc] as key. *)
Lemma keys_of_top_level_source_witness :
  is_Some (collected top_input sample_root !! "__pycache__/mod.cpython-39.pyc") ↔
  ∃ d, ("__pycache__/mod.cpython-39.pyc", d) ∈ entries_below sample_root ∧
       selected ("__pycache__/mod.cpython-39.pyc", d) = true.
Proof.
  apply (keys_of_top_level_source top_input "/tmp/ocibuild-pycompile.1"
           (sample_world ["PATH=/bin"] no_fault) sample_state sample_root
           (collected top_input sample_root)
           eq_refl sample_root_well_named keys_of_top_level_source_sample eq_refl).
Defined.

(** ** The file to compile, and what is collected *)

(** X8: the last argument of the external program is [in.Name()], while
    the input is written under [path.Base(in.FullName())]: the file the
    program is asked to compile is in its working directory exactly when
    the name of the source is the base name of its full name. *)
Theorem file_to_compile exe args clampTime (inp : FileReference) (w : World)
    (s : State) (c : exec.Cmd) (cwd : option (list Node)) :
  EvRun c cwd ∈ since s (compiler exe args clampTime inp w s).2 →
  last (exec.Args c) = Some (Name inp) ∧
  ((∃ ds d, cwd = Some ds ∧ d ∈ ds ∧ node_name d = Name inp) ↔
   Name inp = path.Base (FullName inp)).
Proof.
  intros (tmpdir & s1 & s2 & Hmk & Hs & -> & ->)%compiler_run.
  destruct (workspace_at_run _ _ _ _ _ _ Hmk Hs)
    as (rc & data & st & _ & _ & _ & Hf & _).
  split.
  - rewrite command_Args.
    change (exe :: args ++ ["-p"; path.Join ["/"; path.Dir (FullName inp)]; Name inp])
      with ((exe :: args) ++ ["-p"; path.Join ["/"; path.Dir (FullName inp)]; Name inp]).
    rewrite last_app. reflexivity.
  - unfold dir_entries. rewrite Hf. split.
    + intros (ds & d & [= <-] & Hin & Hn).
      apply list_elem_of_singleton in Hin as ->. by rewrite <- Hn.
    + intros Hn. eexists _, _. split; [done|]. split; [left|]. by rewrite Hn.
Qed.

(** X8, on the sample call, whose source is named [mod.py] at [pkg/mod.py]. *)
Lemma file_to_compile_witness :
  last (exec.Args sample_cmd) = Some (Name sample_input) ∧
  ((∃ ds d, sample_cwd = Some ds ∧ d ∈ ds ∧ node_name d = Name sample_input) ↔
   Name sample_input = path.Base (FullName sample_input)).
Proof.
  apply (file_to_compile "/usr/bin/python3" ["-m"; "compileall"] sample_clamp
           sample_input (sample_world ["PATH=/bin"] no_fault) initial
           sample_cmd sample_cwd).
  in_sample_calls.
Defined.

(** Files with plain names that do not end in [.pyc] cost the walk no call
    and add nothing to the map. *)
Lemma plain_files_skipped (es : list Node) :
  Forall (λ d, node_IsDir d = false ∧ valid_name (node_name d) ∧
               strings.HasSuffix (node_name d) ".pyc" = false) es →
  flat_map (λ d1, walk_ops (path.Join ["."; node_name d1]) d1) es = [] ∧
  filter (λ pd, picked pd = true)
    (flat_map (λ d1, entries (path.Join ["."; node_name d1]) d1) es) = [].
Proof.
  induction 1 as [|d es (Hd & Hn & Hs) _ [IH1 IH2]]; [done|].
  destruct d as [n st c|n st ds]; [|done]. simpl in *.
  assert (path.Join ["."; n] = n) as ->
    by (apply (Join_dot_valid [n]); [done|by apply Forall_singleton]).
  assert (Hp : picked (n, File n st c) = false).
  { unfold picked. simpl. rewrite Hs. by rewrite andb_false_r. }
  unfold visit_ops. rewrite Hp. simpl. rewrite IH1.
  rewrite filter_cons, IH2. by rewrite decide_False by (by rewrite Hp).
Qed.

(** X9: when the external program succeeds and leaves only files whose
    names do not end in [.pyc], the call returns an empty map (a map, not
    nil) and no error but that of the removal: such files are skipped
    before they are examined or opened, so no failure on them can fail the
    call. *)
Theorem nothing_compiled exe args clampTime (inp : FileReference) (w : World)
    (s s1 s2 s3 : State) (tmpdir n : string) (st : Stat) (es : list Node) :
  os.MkdirTemp "" "ocibuild-pycompile." w s = (Ok tmpdir, s1) →
  setup inp tmpdir w s1 = (Ok tt, s2) →
  invoke exe args clampTime inp tmpdir w s2 = (Ok tt, s3) →
  files s3 !! tmpdir = Some (Directory n st es) →
  Forall (λ d, node_IsDir d = false ∧ valid_name (node_name d) ∧
               strings.HasSuffix (node_name d) ".pyc" = false) es →
  fault w (OpStat ".") = None →
  fault w (OpReadDir ".") = None →
  (compiler exe args clampTime inp w s).1 =
  Returns {| compiled := Some ∅; err := fault w OpRemoveAll |}.
Proof.
  intros Hmk Hs Hi Hroot Hes Hstat Hread.
  destruct (plain_files_skipped es Hes) as [Hops Hents].
  rewrite compiler_eq, Hmk. unfold body, bind. rewrite Hs, Hi.
  rewrite (collect_eq _ _ _ _ _ Hroot).
  unfold collect_ops, full_map. simpl. rewrite Hstat, Hread, Hops. simpl.
  rewrite filter_cons. simpl. by rewrite Hents.
Qed.

(** X9, in a world where the program compiles nothing and no entry of the
    workspace can be opened. *)
Lemma nothing_compiled_witness :
  (sample_compiler sample_clamp sample_input idle_world initial).1 =
  Returns {| compiled := Some ∅; err := None |}.
Proof.
  pose (tmpdir := "/tmp/ocibuild-pycompile.3").
  pose (s1 := (os.MkdirTemp "" "ocibuild-pycompile." idle_world initial).2).
  pose (s2 := (setup sample_input tmpdir idle_world s1).2).
  pose (s3 := (invoke "/usr/bin/python3" ["-m"; "compileall"] sample_clamp
                 sample_input tmpdir idle_world s2).2).
  apply (nothing_compiled "/usr/bin/python3" ["-m"; "compileall"] sample_clamp
           sample_input idle_world initial s1 s2 s3 tmpdir "."
           {| st_mode := Z.lor fs.ModeDir (Z.ldiff 448 18); st_size := 0;
              st_atime := time.FromUnix 5; st_mtime := time.FromUnix 5 |}
           [File "mod.py" {| st_mode := 420; st_size := 2;
                             st_atime := time.FromUnix 77;
                             st_mtime := time.FromUnix 77 |} [x61; x62];
            File "notes.txt" (sample_stat 420 0) []]).
  - reflexivity.
  - vm_compute. reflexivity.
  - vm_compute. reflexivity.
  - vm_compute. reflexivity.
  - unfold valid_name. repeat constructor; done.
  - reflexivity.
  - reflexivity.
Defined.

(** X10: every value of a returned map stands for one entry of what the
    external program left in the workspace: it has the file information of
    that entry, the key as its full name and, read before the workspace is
    removed, the whole content of the entry (none for a directory). *)
Theorem values_are_entries exe args clampTime (inp : FileReference) (w : World)
    (s : State) (r : Results) (m : VFS) :
  (compiler exe args clampTime inp w s).1 = Returns r →
  compiled r = Some m →
  ∃ rc data tmpdir es',
    Open inp = inr rc ∧ ReadAll rc = inr data ∧
    external w (command exe args clampTime inp tmpdir (Environ w))
      [input_file w inp data] (now w) = inr es' ∧
    ∀ k ref, m !! k = Some ref →
      ∃ p d,
        (p, d) ∈ flat_map (λ d1, entries (path.Join ["."; node_name d1]) d1) es' ∧
        k = path.Join [path.Dir (FullName inp); p] ∧
        MFullName ref = k ∧
        FileInfo ref = node_Info d ∧
        MContent ref = node_content d ∧
        (node_IsDir d = true → MContent ref = []).
Proof.
  intros Hr Hm.
  destruct (compiler_compiled _ _ _ _ _ _ _ _ Hr Hm)
    as (rc & data & tmpdir & n & st & es' & HO & HR & Hext & _ & ->).
  exists rc, data, tmpdir, es'. repeat split; try done.
  intros k ref Hk. rewrite full_map_Directory in Hk.
  apply fold_add_lookup in Hk as [Hk|([p d] & Hin & -> & ->)].
  { by rewrite lookup_empty in Hk. }
  apply list_elem_of_filter in Hin as [_ Hin].
  exists p, d. repeat split; try done.
  simpl. by destruct d.
Qed.

(** X10, on the sample call. *)
Lemma values_are_entries_witness :
  ∃ rc data tmpdir es',
    Open sample_input = inr rc ∧ ReadAll rc = inr data ∧
    external (sample_world ["PATH=/bin"] no_fault)
      (command "/usr/bin/python3" ["-m"; "compileall"] sample_clamp sample_input tmpdir
         (Environ (sample_world ["PATH=/bin"] no_fault)))
      [input_file (sample_world ["PATH=/bin"] no_fault) sample_input data]
      (now (sample_world ["PATH=/bin"] no_fault)) = inr es' ∧
    ∀ k ref,
      default ∅ (returned_map (sample_compiler sample_clamp sample_input
                                 (sample_world ["PATH=/bin"] no_fault) initial).1)
        !! k = Some ref →
      ∃ p d,
        (p, d) ∈ flat_map (λ d1, entries (path.Join ["."; node_name d1]) d1) es' ∧
        k = path.Join [path.Dir (FullName sample_input); p] ∧
        MFullName ref = k ∧
        FileInfo ref = node_Info d ∧
        MContent ref = node_content d ∧
        (node_IsDir d = true → MContent ref = []).
Proof.
  apply (values_are_entries "/usr/bin/python3" ["-m"; "compileall"] sample_clamp
           sample_input (sample_world ["PATH=/bin"] no_fault) initial
           {| compiled :=
                Some (default ∅ (returned_map
                        (sample_compiler sample_clamp sample_input
                           (sample_world ["PATH=/bin"] no_fault) initial).1));
              err := None |}).
  - vm_compute. reflexivity.
  - reflexivity.
Defined.

(** ** The clamp time and the two results *)

Lemma Unix_FromUnix (u : Z) :
  - 2 ^ 63 ≤ u < 2 ^ 63 → time.Unix (time.FromUnix u) = u.
Proof.
  intros Hu. unfold time.Unix, time.FromUnix, time.int64, time.internalToUnix. simpl.
  replace (u + time.unixToInternal + - time.unixToInternal + 2 ^ 63)
    with (u + 2 ^ 63) by lia.
  rewrite Z.mod_small; lia.
Qed.

Lemma IsZero_FromUnix (u : Z) :
  time.IsZero (time.FromUnix u) = bool_decide (u = time.internalToUnix).
Proof.
  unfold time.IsZero, time.FromUnix, time.internalToUnix. simpl.
  rewrite andb_true_r.
  destruct (Z.eqb_spec (u + time.unixToInternal) 0) as [H|H].
  - symmetry. apply bool_decide_eq_true. lia.
  - symmetry. apply bool_decide_eq_false. lia.
Qed.

(** X11: only the zero value of [time.Time] (January 1 of year 1) turns
    clamping off.  A clamp time at [u] whole seconds from the Unix epoch,
    the epoch itself ([u = 0]) and times before it included, makes the
    program run with [SOURCE_DATE_EPOCH] set to the decimal of [u]. *)
Theorem clamp_at_unix_second exe args (u : Z) (inp : FileReference) (w : World)
    (s : State) (c : exec.Cmd) (cwd : option (list Node)) :
  - 2 ^ 63 ≤ u < 2 ^ 63 →
  u ≠ time.internalToUnix →
  EvRun c cwd ∈ since s (compiler exe args (time.FromUnix u) inp w s).2 →
  exec.Env c =
    Some (Environ w ++ ["PYTHONHASHSEED=0"; "SOURCE_DATE_EPOCH=" +:+ fmt.d u]).
Proof.
  intros Hu Hz (tmpdir & s1 & s2 & _ & _ & -> & _)%compiler_run.
  rewrite command_Env, IsZero_FromUnix, bool_decide_eq_false_2 by done.
  by rewrite Unix_FromUnix.
Qed.

(** X11, at the Unix epoch itself. *)
Lemma clamp_at_unix_second_witness :
  exec.Env (command "/usr/bin/python3" ["-m"; "compileall"] (time.FromUnix 0)
              sample_input "/tmp/ocibuild-pycompile.1" ["PATH=/bin"]) =
  Some (Environ (sample_world ["PATH=/bin"] no_fault) ++
          ["PYTHONHASHSEED=0"; "SOURCE_DATE_EPOCH=" +:+ fmt.d 0]).
Proof.
  apply (clamp_at_unix_second "/usr/bin/python3" ["-m"; "compileall"] 0
           sample_input (sample_world ["PATH=/bin"] no_fault) initial
           (command "/usr/bin/python3" ["-m"; "compileall"] (time.FromUnix 0)
              sample_input "/tmp/ocibuild-pycompile.1" ["PATH=/bin"])
           sample_cwd).
  - lia.
  - discriminate.
  - in_sample_calls.
Defined.

(** X12: the two results of a call go together as follows: without a map
    there is an error; without an error there is a map; and a map comes
    with an error only when every phase succeeded and the removal of the
    workspace failed, the error being that of the removal. *)
Theorem results_invariant exe args clampTime (inp : FileReference) (w : World)
    (s : State) :
  ∃ r,
    (compiler exe args clampTime inp w s).1 = Returns r ∧
    (compiled r = None → is_Some (err r)) ∧
    (err r = None → is_Some (compiled r)) ∧
    (∀ m e, compiled r = Some m → err r = Some e → fault w OpRemoveAll = Some e).
Proof.
  rewrite compiler_eq.
  destruct (os.MkdirTemp _ _ w s) as [rm s1] eqn:Hmk.
  destruct (MkdirTemp_trace _ _ _ _ _ _ Hmk) as [_ Hnp].
  destruct rm as [tmpdir|e|m]; [| |by destruct (Hnp m)].
  - destruct (body exe args clampTime inp tmpdir w s1) as [r s2] eqn:Hb. simpl.
    destruct (body_cases _ _ _ _ _ _ _ _ _ Hb) as [(E & -> & _)|(vfs & ? & ? & -> & _)].
    + eexists. split; [done|]. simpl. repeat split; [by eexists|done..].
    + eexists. split; [done|]. simpl. repeat split; [done|by eexists|].
      by intros m e _ ->.
  - eexists. split; [done|]. simpl. repeat split; [by eexists|done..].
Qed.
